(** * hyper: a fluent request builder over net/http

    Shallow embedding of [hyper.go] and the properties of its builder,
    execution step and response helpers.

    The builder ([Request]) is a Go struct mutated through a pointer and
    handed back by every configuration method.  Here a method takes the
    builder's current value and returns its next value inside a small monad
    that threads the part of the machine the methods touch: the heap of
    header maps (Go maps are references, so two requests may share one), the
    outside world the transport talks to, and a trace of the calls made to
    the transport and to the response-validation hook. *)

From Stdlib Require Import ZArith Ascii String.
From stdpp Require Import gmap strings list fin_maps pretty sorting.

Local Open Scope string_scope.

(** ** Go values the package handles *)

(** A non-nil [error]: what [errors.New] and [fmt.Errorf] build.  A nil
    error is [None] in an [option error]. *)
Inductive error : Type :=
  | errorString (msg : string).

Definition Error (e : error) : string :=
  match e with errorString msg => msg end.

Global Instance error_eq_dec : EqDecision error.
Proof. solve_decision. Defined.

(** A call either returns or panics (nil dereference). *)
Inductive outcome (A : Type) : Type :=
  | Returns (a : A)
  | Panics (msg : string).
Arguments Returns {A} a.
Arguments Panics {A} msg.

(** [io.Reader]: the bytes still to be read and what [Read] reports once
    they are exhausted ([None] is a clean [io.EOF]). *)
Record io_Reader : Type := mk_Reader {
  rd_data : string;
  rd_err : option error
}.

(** [io.ReadCloser]: a reader, the value [Close] returns, and whether
    [Close] has been called. *)
Record io_ReadCloser : Type := mk_ReadCloser {
  rc_reader : io_Reader;
  rc_close : option error;
  rc_closed : bool
}.

(** [io.ReadAll]: everything up to EOF or the first error; EOF is not
    reported as an error.  The bytes are consumed. *)
Definition io_ReadAll (rc : io_ReadCloser) : (string * option error) * io_ReadCloser :=
  ((rd_data (rc_reader rc), rd_err (rc_reader rc)),
   mk_ReadCloser (mk_Reader EmptyString (rd_err (rc_reader rc))) (rc_close rc) (rc_closed rc)).

Definition io_Close (rc : io_ReadCloser) : option error * io_ReadCloser :=
  (rc_close rc, mk_ReadCloser (rc_reader rc) (rc_close rc) true).

(** [io.NopCloser(bytes.NewBuffer(data))]: reads [data], never fails, and
    [Close] does nothing and returns nil. *)
Definition io_NopCloser_Buffer (data : string) : io_ReadCloser :=
  mk_ReadCloser (mk_Reader data None) None false.

(** [context.Context], non-nil: the background context or one derived from
    a parent ([WithCancel], [WithValue], ...; [tag] tells them apart).  A
    nil context, on which [Request.WithContext] and [Request.Clone] panic,
    is outside the type: [Context] and [CloneWithContext] are modelled on
    non-nil contexts only. *)
Inductive context_Context : Type :=
  | context_Background
  | context_Derived (parent : context_Context) (tag : nat).

(** [url.URL], the fields the package reads or writes. *)
Record url_URL : Type := mk_URL {
  Scheme : string;
  Host : string;
  Path : string;
  RawQuery : string
}.

(** [http.Header] and [url.Values] are both [map[string][]string].  The
    value slices are lists: [Header.Set] stores a new slice and
    [Header.Clone] copies the slices, so no two maps share one. *)
Abbreviation http_Header := (gmap string (list string)).
Abbreviation url_Values := (gmap string (list string)).

(** Maps are reference values: a header map lives in the heap and a request
    holds its address. *)
Definition loc : Type := positive.
Abbreviation Heap := (gmap loc http_Header).

(** [http.Request], the fields the package reads or writes.  [req_ctx] is
    [None] for the nil context a zero request has. *)
Record http_Request : Type := mk_http_Request {
  req_Method : string;
  req_URL : option url_URL;
  req_Header : loc;
  req_Body : option io_ReadCloser;
  req_ctx : option context_Context
}.

(** [http.Response] *)
Record http_Response : Type := mk_http_Response {
  StatusCode : Z;
  Status : string;
  resp_Body : option io_ReadCloser
}.

(** The [Clienter] interface: the one method [Do], from a request pointer
    to a response pointer and an error.  It sees the request (and, through
    it, the header map), acts on the world, and returns Go's pair of a
    possibly nil response and a possibly nil error.  What a client does to
    the request it is handed (a transport reads and closes the body) is not
    part of the model, and nothing below is stated about it. *)
Record Clienter (World : Type) : Type := mk_Clienter {
  client_Do : Heap -> http_Request -> World ->
              (option http_Response * option error) * World
}.
Arguments mk_Clienter {World} _.
Arguments client_Do {World} _ _ _ _.

(** The standard library the package is linked against, and the process
    state [defaultClient] is initialised from. *)
Class Platform : Type := {
  World : Type;
  (** [textproto.CanonicalMIMEHeaderKey], applied by [Header.Set]/[Add] *)
  textproto_CanonicalMIMEHeaderKey : string -> string;
  (** [strconv.Quote], the [%q] verb *)
  strconv_Quote : string -> string;
  (** [url.Parse] *)
  url_Parse : string -> url_URL + error;
  (** [url.ParseQuery] with its error dropped, as [URL.Query] does *)
  url_ParseQuery : string -> url_Values;
  (** [Values.Encode] *)
  url_Values_Encode : url_Values -> string;
  (** [http.DefaultClient] *)
  http_DefaultClient : Clienter World
}.

(** [encoding/json] at the Go type [V]: [json.Marshal], and
    [json.NewDecoder(rd).Decode(&v)], which can only read from the stream
    and write the destination. *)
Class JSON (V : Type) : Type := {
  json_Marshal : V -> string + error;
  json_Decode : io_Reader -> V -> (option error * V) * io_Reader
}.

(** [http.MethodGet] and the like *)
Definition http_MethodGet : string := "GET".
Definition http_MethodPost : string := "POST".
Definition http_MethodPut : string := "PUT".
Definition http_MethodPatch : string := "PATCH".
Definition http_MethodDelete : string := "DELETE".
Definition http_MethodOptions : string := "OPTIONS".
Definition http_StatusOK : Z := 200.

(** [%v] of an int *)
Definition fmt_int (n : Z) : string := pretty n.

(** [strings.Contains] *)
Fixpoint strings_HasPrefix (s prefix : string) : bool :=
  match prefix, s with
  | EmptyString, _ => true
  | String p prefix', String c s' => bool_decide (p = c) && strings_HasPrefix s' prefix'
  | String _ _, EmptyString => false
  end.

Fixpoint strings_Contains (s substr : string) : bool :=
  strings_HasPrefix s substr ||
  match s with
  | EmptyString => false
  | String _ s' => strings_Contains s' substr
  end.

(** ** The package *)

Section Hyper.
Context `{P : Platform}.

(** [type Request struct]: the builder.  [client] and [onResponseCheck] are
    nil ([None]) until set; the hook receives the response pointer the
    transport returned, nil included, and is taken to inspect the response
    without changing it, as [Check200] does. *)
Record Request : Type := mk_Request {
  client : option (Clienter World);
  request : http_Request;
  err : option error;
  onResponseCheck : option (option http_Response -> outcome (option error))
}.

(** [type Response struct]: the embedded response pointer, which is nil when
    the transport returned no response and no error. *)
Record Response : Type := mk_Response {
  embedded : option http_Response
}.

(** Calls that leave the process, in the order they were made. *)
Inductive event : Type :=
  | EvDo (c : Clienter World) (req : http_Request)
  | EvCheck (resp : option http_Response).

Record State : Type := mk_State {
  heap : Heap;
  world : World;
  trace : list event
}.

(** The monad of the package's methods *)
Definition M (A : Type) : Type := State -> outcome (A * State).

Definition ret {A} (a : A) : M A := fun st => Returns (a, st).

Definition bind {A B} (m : M A) (k : A -> M B) : M B :=
  fun st =>
    match m st with
    | Returns (a, st') => k a st'
    | Panics msg => Panics msg
    end.

Definition panic {A} (msg : string) : M A := fun _ => Panics msg.

Definition lift {A} (o : outcome A) : M A :=
  fun st => match o with Returns a => Returns (a, st) | Panics msg => Panics msg end.

Notation "'let*' x ':=' m 'in' k" := (bind m (fun x => k))
  (at level 10, x name, m at level 100, k at level 200, only parsing).
Notation "'let*' ' pat ':=' m 'in' k" :=
  (bind m (fun x => match x with pat => k end))
  (at level 10, pat pattern, m at level 100, k at level 200, only parsing).

Definition get_heap : M Heap := fun st => Returns (heap st, st).

Definition modify_heap (f : Heap -> Heap) : M unit :=
  fun st => Returns (tt, mk_State (f (heap st)) (world st) (trace st)).

Definition log (ev : event) : M unit :=
  fun st => Returns (tt, mk_State (heap st) (world st) ((trace st ++ [ev])%list)).

(** The contents of the map at an address; an address never written holds
    the empty map. *)
Definition deref (h : Heap) (l : loc) : http_Header := default ∅ (h !! l).

(** [make(http.Header)] and [Header.Clone]: a new map at a fresh address *)
Definition alloc (m : http_Header) : M loc :=
  fun st =>
    let l := fresh (dom (heap st)) in
    Returns (l, mk_State (<[l := m]> (heap st)) (world st) (trace st)).

(** [Header.Set]: the values of the canonical key become the one value *)
Definition Header_Set (l : loc) (key value : string) : M unit :=
  modify_heap (fun h =>
    <[l := <[textproto_CanonicalMIMEHeaderKey key := [value]]> (deref h l)]> h).

(** [Header.Add]: the value is appended to the values of the canonical key *)
Definition Header_Add (l : loc) (key value : string) : M unit :=
  modify_heap (fun h =>
    let k := textproto_CanonicalMIMEHeaderKey key in
    <[l := <[k := (default [] (deref h l !! k) ++ [value])%list]> (deref h l)]> h).

(** [Request.WithContext]: a shallow copy with the context replaced; the
    copy shares the header map. *)
Definition http_Request_WithContext (ctx : context_Context) (req : http_Request)
  : http_Request :=
  mk_http_Request (req_Method req) (req_URL req) (req_Header req) (req_Body req)
                  (Some ctx).

(** [Request.Context]: the background context when none was set *)
Definition http_Request_Context (req : http_Request) : context_Context :=
  default context_Background (req_ctx req).

(** [Request.Clone]: a deep copy with the context replaced; the header map
    is cloned into a new map, the URL is copied, the body is not. *)
Definition http_Request_Clone (ctx : context_Context) (req : http_Request)
  : M http_Request :=
  let* h := get_heap in
  let* l := alloc (deref h (req_Header req)) in
  ret (mk_http_Request (req_Method req) (req_URL req) l (req_Body req) (Some ctx)).

(** Field assignments [r.f = v] *)
Definition set_client (c : option (Clienter World)) (r : Request) : Request :=
  mk_Request c (request r) (err r) (onResponseCheck r).
Definition set_request (req : http_Request) (r : Request) : Request :=
  mk_Request (client r) req (err r) (onResponseCheck r).
Definition set_err (e : option error) (r : Request) : Request :=
  mk_Request (client r) (request r) e (onResponseCheck r).
Definition set_onResponseCheck
    (f : option (option http_Response -> outcome (option error))) (r : Request)
  : Request :=
  mk_Request (client r) (request r) (err r) f.

Definition set_Method (m : string) (req : http_Request) : http_Request :=
  mk_http_Request m (req_URL req) (req_Header req) (req_Body req) (req_ctx req).
Definition set_URL (u : option url_URL) (req : http_Request) : http_Request :=
  mk_http_Request (req_Method req) u (req_Header req) (req_Body req) (req_ctx req).
Definition set_Body (b : option io_ReadCloser) (req : http_Request) : http_Request :=
  mk_http_Request (req_Method req) (req_URL req) (req_Header req) b (req_ctx req).
Definition set_RawQuery (q : string) (u : url_URL) : url_URL :=
  mk_URL (Scheme u) (Host u) (Path u) q.

(** [func Check200] *)
Definition Check200 (r : option http_Response) : outcome (option error) :=
  match r with
  | None => Panics "nil pointer dereference"
  | Some r =>
      if bool_decide (StatusCode r <> http_StatusOK)
      then Returns (Some (errorString
             ("[" ++ fmt_int (StatusCode r) ++ "] " ++ Status r)))
      else Returns None
  end.

(** [func (r *Request) OnResponseCheck] *)
Definition OnResponseCheck (f : option http_Response -> outcome (option error))
    (r : Request) : M Request :=
  ret (set_onResponseCheck (Some f) r).

(** The body of a response wrapper; nil pointers on the way panic. *)
Definition Response_Body (r : Response) : outcome (http_Response * io_ReadCloser) :=
  match embedded r with
  | None => Panics "nil pointer dereference"
  | Some resp =>
      match resp_Body resp with
      | None => Panics "nil pointer dereference"
      | Some rc => Returns (resp, rc)
      end
  end.

Definition with_Body (resp : http_Response) (rc : io_ReadCloser) : Response :=
  mk_Response (Some (mk_http_Response (StatusCode resp) (Status resp) (Some rc))).

(** [func (r *Response) Raw]: the deferred [Close] runs after [ReadAll];
    what it returns is dropped. *)
Definition Raw (r : Response) : outcome ((string * option error) * Response) :=
  match Response_Body r with
  | Panics msg => Panics msg
  | Returns (resp, rc) =>
      let '(res, rc) := io_ReadAll rc in
      let '(_, rc) := io_Close rc in
      Returns (res, with_Body resp rc)
  end.

(** [func (r *Response) ParseJson]: decodes into the destination [i] and
    returns its error, if any, before the body is closed. *)
Definition ParseJson {V} `{JSON V} (i : V) (r : Response)
  : outcome ((option error * V) * Response) :=
  match Response_Body r with
  | Panics msg => Panics msg
  | Returns (resp, rc) =>
      let '((err, i), rd) := json_Decode (rc_reader rc) i in
      let rc := mk_ReadCloser rd (rc_close rc) (rc_closed rc) in
      match err with
      | Some e => Returns ((Some e, i), with_Body resp rc)
      | None =>
          let '(cerr, rc) := io_Close rc in
          Returns ((cerr, i), with_Body resp rc)
      end
  end.

(** [func New]: an empty request over a freshly made header map *)
Definition New : M Request :=
  let* l := alloc ∅ in
  ret (mk_Request None (mk_http_Request EmptyString None l None None) None None).

Definition set_method (m : string) (r : Request) : M Request :=
  ret (set_request (set_Method m (request r)) r).

(** [func (r *Request) Get], [Post], [Delete], [Put], [Patch], [Options] *)
Definition Get : Request -> M Request := set_method http_MethodGet.
Definition Post : Request -> M Request := set_method http_MethodPost.
Definition Delete : Request -> M Request := set_method http_MethodDelete.
Definition Put : Request -> M Request := set_method http_MethodPut.
Definition Patch : Request -> M Request := set_method http_MethodPatch.
Definition Options : Request -> M Request := set_method http_MethodOptions.

(** [func (r *Request) SetClient]; a nil [client] is [None] *)
Definition SetClient (c : option (Clienter World)) (r : Request) : M Request :=
  ret (set_client c r).

(** The loop [for index, value := range values] of [SetHeader] *)
Fixpoint SetHeader_range (l : loc) (key : string) (index : nat)
    (values : list string) : M unit :=
  match values with
  | [] => ret tt
  | value :: values' =>
      let* _ := (if Nat.eqb index 0
                 then Header_Set l key value
                 else Header_Add l key value) in
      SetHeader_range l key (S index) values'
  end.

(** [func (r *Request) SetHeader] *)
Definition SetHeader (key : string) (values : list string) (r : Request)
  : M Request :=
  if Nat.eqb (length values) 0
  then ret (set_err (Some (errorString
              ("missing values for set header " ++ strconv_Quote key))) r)
  else
    let* _ := SetHeader_range (req_Header (request r)) key 0 values in
    ret r.

(** [Values.Add]: appends to the values of the key as given *)
Definition url_Values_Add (key value : string) (v : url_Values) : url_Values :=
  <[key := (default [] (v !! key) ++ [value])%list]> v.

(** [func (r *Request) SetQueryParam] *)
Definition SetQueryParam (key value : string) (r : Request) : M Request :=
  match req_URL (request r) with
  | None =>
      ret (set_err (Some (errorString "cannot add query param to nil url")) r)
  | Some u =>
      let query := url_ParseQuery (RawQuery u) in
      let query := url_Values_Add key value query in
      ret (set_request
             (set_URL (Some (set_RawQuery (url_Values_Encode query) u)) (request r))
             r)
  end.

(** [func (r *Request) GetHeader]: the map itself, that is its address *)
Definition GetHeader (r : Request) : loc := req_Header (request r).

(** [func (r *Request) Url] *)
Definition Url (u : string) (r : Request) : M Request :=
  match url_Parse u with
  | inr e => ret (set_err (Some e) r)
  | inl res => ret (set_request (set_URL (Some res) (request r)) r)
  end.

(** [func (r *Request) Body]; a nil [rc] is [None] *)
Definition Body (rc : option io_ReadCloser) (r : Request) : M Request :=
  ret (set_request (set_Body rc (request r)) r).

(** [func (r *Request) Json] *)
Definition Json {V} `{JSON V} (body : V) (r : Request) : M Request :=
  let* r := SetHeader "content-type" ["application/json"] r in
  match json_Marshal body with
  | inr e => ret (set_err (Some e) r)
  | inl data =>
      ret (set_request (set_Body (Some (io_NopCloser_Buffer data)) (request r)) r)
  end.

(** The call [r.client.Do(r.request)]: recorded in the trace, then run on
    the world. *)
Definition call_client (c : Clienter World) (req : http_Request)
  : M (option http_Response * option error) :=
  fun st =>
    let '(res, w) := client_Do c (heap st) req (world st) in
    Returns (res, mk_State (heap st) w (trace st ++ [EvDo c req])%list).

(** The call [r.onResponseCheck(resp)], recorded in the trace *)
Definition call_hook (f : option http_Response -> outcome (option error))
    (resp : option http_Response) : M (option error) :=
  let* _ := log (EvCheck resp) in
  lift (f resp).

(** [r.client] once [Do] has made sure it is not nil *)
Definition resolved_client (r : Request) : Clienter World :=
  default http_DefaultClient (client r).

(** [func (r *Request) Do].  The builder is returned next to Go's two
    results because the call may assign [r.client]. *)
Definition Do (r : Request) : M (Request * (option Response * option error)) :=
  match err r with
  | Some e => ret (r, (None, Some e))
  | None =>
      let r := match client r with
               | None => set_client (Some http_DefaultClient) r
               | Some _ => r
               end in
      let* '(resp, err) := call_client (resolved_client r) (request r) in
      match err with
      | Some e => ret (r, (None, Some e))
      | None =>
          match onResponseCheck r with
          | Some f =>
              let* err := call_hook f resp in
              match err with
              | Some e => ret (r, (None, Some e))
              | None => ret (r, (Some (mk_Response resp), None))
              end
          | None => ret (r, (Some (mk_Response resp), None))
          end
      end
  end.

(** [fmt.Errorf] with the three formats of [DoAndParseJson]; [%v] of an
    error is its message, and [string(raw)] is the bytes read. *)
Definition errorf_error (e : error) : error :=
  errorString ("error: " ++ Error e).
Definition errorf_error_content (e : error) (content : string) : error :=
  errorString ("error: " ++ Error e ++ ", content=" ++ content).

(** [func (r *Request) DoAndParseJson]: the destination [i] is returned
    next to the error; the response is dropped. *)
Definition DoAndParseJson {V} `{JSON V} (i : V) (r : Request)
  : M (Request * (option error * V)) :=
  let* '(r, (resp, err)) := Do r in
  match err with
  | Some e =>
      match resp with
      | Some resp =>
          let* '(_, rc) := lift (Response_Body resp) in
          let '((raw, err2), _) := io_ReadAll rc in
          match err2 with
          | Some e2 => ret (r, (Some (errorf_error_content e (Error e2)), i))
          | None => ret (r, (Some (errorf_error_content e raw), i))
          end
      | None => ret (r, (Some (errorf_error e), i))
      end
  | None =>
      match resp with
      | None => panic "nil pointer dereference"
      | Some resp =>
          let* '((err, i), _) := lift (ParseJson i resp) in
          ret (r, (err, i))
      end
  end.

(** [func (r *Request) Context] *)
Definition Context (ctx : context_Context) (r : Request) : M Request :=
  ret (set_request (http_Request_WithContext ctx (request r)) r).

(** [func (r *Request) CloneWithContext]: the struct literal names
    [request], [err] and [client]; [onResponseCheck] takes its zero value. *)
Definition CloneWithContext (ctx : context_Context) (r : Request) : M Request :=
  let* req := http_Request_Clone ctx (request r) in
  ret (mk_Request (client r) req (err r) None).

(** [func (r *Request) Clone] *)
Definition Clone (r : Request) : M Request :=
  CloneWithContext (http_Request_Context (request r)) r.

(** The header map a builder holds, as it is in a given state *)
Definition headers_of (r : Request) (st : State) : http_Header :=
  deref (heap st) (GetHeader r).

(** A builder as [New] and the clone methods make them: its header map has
    been allocated. *)
Definition allocated (r : Request) (st : State) : Prop :=
  GetHeader r ∈ dom (heap st).

(** The responses handed to the validation hook so far *)
Definition checks (tr : list event) : list (option http_Response) :=
  omap (fun ev => match ev with EvCheck resp => Some resp | EvDo _ _ => None end) tr.

(** The requests handed to a transport so far *)
Definition transport_calls (tr : list event) : list http_Request :=
  omap (fun ev => match ev with EvDo _ req => Some req | EvCheck _ => None end) tr.

(** The configuration methods, as values, so that a chain of calls is a
    list.  [OpClone] and [OpCloneWithContext] continue the chain on the
    clone. *)
Inductive config_op : Type :=
  | OpGet | OpPost | OpDelete | OpPut | OpPatch | OpOptions
  | OpSetClient (c : option (Clienter World))
  | OpSetHeader (key : string) (values : list string)
  | OpSetQueryParam (key value : string)
  | OpUrl (u : string)
  | OpBody (rc : option io_ReadCloser)
  | OpJson (V : Type) (J : JSON V) (body : V)
  | OpContext (ctx : context_Context)
  | OpOnResponseCheck (f : option http_Response -> outcome (option error))
  | OpClone
  | OpCloneWithContext (ctx : context_Context).

Definition configure (op : config_op) : Request -> M Request :=
  match op with
  | OpGet => Get
  | OpPost => Post
  | OpDelete => Delete
  | OpPut => Put
  | OpPatch => Patch
  | OpOptions => Options
  | OpSetClient c => SetClient c
  | OpSetHeader key values => SetHeader key values
  | OpSetQueryParam key value => SetQueryParam key value
  | OpUrl u => Url u
  | OpBody rc => Body rc
  | OpJson V J body => @Json V J body
  | OpContext ctx => Context ctx
  | OpOnResponseCheck f => OnResponseCheck f
  | OpClone => Clone
  | OpCloneWithContext ctx => CloneWithContext ctx
  end.

Fixpoint configure_all (ops : list config_op) (r : Request) : M Request :=
  match ops with
  | [] => ret r
  | op :: ops' =>
      let* r := configure op r in
      configure_all ops' r
  end.

(** The reading of the header rule under which a later [SetHeader] call for
    a key adds its values after those of an earlier call. *)
Definition SetHeader_appends_across_calls (r : Request) (st : State)
    (key : string) (first second : list string) : Prop :=
  forall r1 st1 r2 st2,
    SetHeader key first r st = Returns (r1, st1) ->
    SetHeader key second r1 st1 = Returns (r2, st2) ->
    headers_of r2 st2 !! textproto_CanonicalMIMEHeaderKey key
      = Some (first ++ second)%list.



(** A step that writes at most the header map at [l] *)
Definition touches_only (l : loc) (st st' : State) : Prop :=
  (forall l', l' <> l -> heap st' !! l' = heap st !! l') /\
  dom (heap st) ⊆ dom (heap st') /\
  world st' = world st /\
  trace st' = trace st.

(** The configuration methods that write a header map or make a new one *)
Definition header_op (op : config_op) : bool :=
  match op with
  | OpSetHeader _ _ | OpJson _ _ _ | OpClone | OpCloneWithContext _ => true
  | _ => false
  end.


End Hyper.

Notation "'let*' x ':=' m 'in' k" := (bind m (fun x => k))
  (at level 10, x name, m at level 100, k at level 200, only parsing).
Notation "'let*' ' pat ':=' m 'in' k" :=
  (bind m (fun x => match x with pat => k end))
  (at level 10, pat pattern, m at level 100, k at level 200, only parsing).

(** ** A simulated platform, to run the package on concrete inputs *)

Module Sim.

Definition byte_in (lo hi : nat) (c : ascii) : bool :=
  Nat.leb lo (nat_of_ascii c) && Nat.leb (nat_of_ascii c) hi.

(** [validHeaderFieldByte] of net/textproto: the token characters *)
Definition validHeaderFieldByte (c : ascii) : bool :=
  byte_in 48 57 c || byte_in 65 90 c || byte_in 97 122 c ||
  bool_decide (nat_of_ascii c ∈
    [33; 35; 36; 37; 38; 39; 42; 43; 45; 46; 94; 95; 96; 124; 126]).

Fixpoint all_bytes (f : ascii -> bool) (s : string) : bool :=
  match s with
  | EmptyString => true
  | String c s' => f c && all_bytes f s'
  end.

Fixpoint canonical_go (upper : bool) (s : string) : string :=
  match s with
  | EmptyString => EmptyString
  | String c s' =>
      let c' := if upper && byte_in 97 122 c
                then ascii_of_nat (nat_of_ascii c - 32)
                else if negb upper && byte_in 65 90 c
                then ascii_of_nat (nat_of_ascii c + 32)
                else c in
      String c' (canonical_go (bool_decide (nat_of_ascii c' = 45)) s')
  end.

(** [textproto.CanonicalMIMEHeaderKey]: a key with a byte outside the token
    characters is left alone; otherwise the first letter and every letter
    after a hyphen are upper case and the others lower case. *)
Definition CanonicalMIMEHeaderKey (s : string) : string :=
  if all_bytes validHeaderFieldByte s then canonical_go true s else s.

Definition dquote : string := String (ascii_of_nat 34) EmptyString.
Definition backslash : string := String (ascii_of_nat 92) EmptyString.

Fixpoint quote_go (s : string) : string :=
  match s with
  | EmptyString => EmptyString
  | String c s' =>
      (if bool_decide (nat_of_ascii c = 34) then backslash ++ dquote
       else if bool_decide (nat_of_ascii c = 92) then backslash ++ backslash
       else String c EmptyString) ++ quote_go s'
  end.

(** [strconv.Quote] on printable ASCII: the text between double quotes,
    with a backslash before a double quote or a backslash. *)
Definition Quote (s : string) : string := dquote ++ quote_go s ++ dquote.

Fixpoint string_drop (n : nat) (s : string) : string :=
  match n, s with
  | 0, _ => s
  | S n', String _ s' => string_drop n' s'
  | S _, EmptyString => EmptyString
  end.

(** [strings.Cut]: the text before and after the first separator *)
Fixpoint cut (sep s : string) : string * option string :=
  if strings_HasPrefix s sep
  then (EmptyString, Some (string_drop (String.length sep) s))
  else match s with
       | EmptyString => (EmptyString, None)
       | String c s' => let '(before, after) := cut sep s' in (String c before, after)
       end.

(** [strings.Split] on a one-byte separator *)
Fixpoint split (sep : ascii) (s : string) : list string :=
  match s with
  | EmptyString => [EmptyString]
  | String c s' =>
      if bool_decide (c = sep) then EmptyString :: split sep s'
      else match split sep s' with
           | [] => [String c EmptyString]
           | w :: ws => String c w :: ws
           end
  end.

(** [url.Parse] on URLs without user info, port, fragment or escapes: a
    control character is the one error. *)
Definition Parse (rawURL : string) : url_URL + error :=
  if negb (all_bytes (byte_in 32 126) rawURL)
  then inr (errorString ("parse " ++ Quote rawURL ++
                         ": net/url: invalid control character in URL"))
  else
    let '(rest, query) := cut "?" rawURL in
    let '(scheme, after) := cut "://" rest in
    match after with
    | None => inl (mk_URL EmptyString EmptyString rest (default EmptyString query))
    | Some hostpath =>
        let '(host, path) := cut "/" hostpath in
        inl (mk_URL scheme host
               (match path with Some p => "/" ++ p | None => EmptyString end)
               (default EmptyString query))
    end.

(** [url.ParseQuery] on queries without escapes *)
Definition ParseQuery (query : string) : url_Values :=
  foldl (fun (m : url_Values) kv =>
           if bool_decide (kv = EmptyString) then m
           else let '(k, v) := cut "=" kv in
                url_Values_Add k (default EmptyString v) m)
        ∅ (split "&" query).

Definition key_le (a b : string) : Prop := String.leb a b = true.
#[local] Instance key_le_dec a b : Decision (key_le a b).
Proof. unfold key_le. apply _. Defined.

Fixpoint join (sep : string) (l : list string) : string :=
  match l with
  | [] => EmptyString
  | [x] => x
  | x :: l' => x ++ sep ++ join sep l'
  end.

(** [Values.Encode] on keys and values without escapes: sorted by key *)
Definition Encode (v : url_Values) : string :=
  let keys := merge_sort key_le (map fst (map_to_list v)) in
  join "&" (flat_map (fun k => map (fun x => k ++ "=" ++ x) (default [] (v !! k))) keys).

(** The world of the simulation: the number of requests that left.  The
    default client reaches no server. *)
Definition DefaultClient : Clienter nat :=
  mk_Clienter (fun _ _ w =>
    ((None, Some (errorString "dial tcp: connection refused")), S w)).

#[local] Instance platform : Platform := {|
  World := nat;
  textproto_CanonicalMIMEHeaderKey := CanonicalMIMEHeaderKey;
  strconv_Quote := Quote;
  url_Parse := Parse;
  url_ParseQuery := ParseQuery;
  url_Values_Encode := Encode;
  http_DefaultClient := DefaultClient
|}.

(** A transport that answers every request with the request's own body *)
Definition echo : Clienter nat :=
  mk_Clienter (fun _ req w =>
    ((Some (mk_http_Response 200 "200 OK" (req_Body req)), None), S w)).

(** A transport that answers every request with one fixed response *)
Definition fixed (code : Z) (status body : string) : Clienter nat :=
  mk_Clienter (fun _ _ w =>
    ((Some (mk_http_Response code status (Some (io_NopCloser_Buffer body))), None),
     S w)).

Fixpoint parse_digits (acc : Z) (s : string) : option Z :=
  match s with
  | EmptyString => Some acc
  | String c s' =>
      if byte_in 48 57 c
      then parse_digits (10 * acc + Z.of_nat (nat_of_ascii c - 48)) s'
      else None
  end.

Definition parse_int (s : string) : option Z :=
  match s with
  | EmptyString => None
  | String c s' =>
      if bool_decide (nat_of_ascii c = 45)
      then match s' with
           | EmptyString => None
           | _ => Z.opp <$> parse_digits 0 s'
           end
      else parse_digits 0 s
  end.

(** [encoding/json] at Go's [int]: decimal digits *)
#[local] Instance json_int : JSON Z := {|
  json_Marshal n := inl (fmt_int n);
  json_Decode rd i :=
    match parse_int (rd_data rd) with
    | Some n => ((None, n), mk_Reader EmptyString (rd_err rd))
    | None =>
        match rd_data rd, rd_err rd with
        | EmptyString, Some e => ((Some e, i), rd)
        | EmptyString, None => ((Some (errorString "EOF"), i), rd)
        | _, _ => ((Some (errorString "invalid character"), i), rd)
        end
    end
|}.

(** The machine before anything ran *)
Definition init : State := mk_State ∅ 0 [].

(** The builder [New] returns on [init], and the state it leaves *)
Definition blank : Request :=
  mk_Request None (mk_http_Request EmptyString None 1%positive None None) None None.
Definition blank_state : State := mk_State {[1%positive := ∅]} 0 [].

(** [New().Get().Url(u).OnResponseCheck(Check200).SetClient(c)] followed by
    [DoAndParseJson] into an [int] that holds 0, against a server that
    answers 404 with a body. *)
Definition not_found : Clienter nat := fixed 404 "404 Not Found" "resource missing".

Definition checked_get (c : Clienter nat) : M Request :=
  let* r := New in
  let* r := Get r in
  let* r := Url "http://x/" r in
  let* r := OnResponseCheck Check200 r in
  SetClient (Some c) r.

Definition not_found_scenario : M (Request * (option error * Z)) :=
  let* r := checked_get not_found in
  DoAndParseJson 0%Z r.

(** [New().Post().Url(u).Json(v).SetClient(echo)] *)
Definition post_json (v : Z) : M Request :=
  let* r := New in
  let* r := Post r in
  let* r := Url "http://x/test" r in
  let* r := Json v r in
  SetClient (Some echo) r.

(** [blank] with a client and [Check200] as its hook, and [blank] with a
    client or none and no hook *)
Definition checked (c : Clienter nat) : Request :=
  mk_Request (P := platform) (Some c) (request blank) None (Some Check200).
Definition plain (c : option (Clienter nat)) : Request :=
  mk_Request (P := platform) c (request blank) None None.

(** A transport that returns neither a response nor an error *)
Definition silent : Clienter nat :=
  mk_Clienter (fun _ _ w => ((None, None), S w)).

(** [encoding/json] at a Go function type: nothing to encode or decode *)
#[local] Instance json_func : JSON (Z -> Z) := {|
  json_Marshal _ := inr (errorString "json: unsupported type: func(int) int");
  json_Decode rd i :=
    ((Some (errorString "json: cannot unmarshal into Go value of type func(int) int"),
      i), rd)
|}.



(** A URL with a tab in it, which [url.Parse] rejects *)
Definition bad_url : string := "http://x/" ++ String (ascii_of_nat 9) EmptyString.

End Sim.

Example sim_canonical : Sim.CanonicalMIMEHeaderKey "content-type" = "Content-Type".
Proof. reflexivity. Qed.
Example sim_parse : Sim.Parse "http://x/test?a=1" = inl (mk_URL "http" "x" "/test" "a=1").
Proof. vm_compute. reflexivity. Qed.
Example sim_pretty : fmt_int 404 = "404".
Proof. vm_compute. reflexivity. Qed.
Example sim_query : Sim.Encode (url_Values_Add "b" "2" (Sim.ParseQuery "z=1&b=3")) = "b=3&b=2&z=1".
Proof. vm_compute. reflexivity. Qed.

(** * Properties *)

(** Unfolds the monad's plumbing. *)
Ltac run :=
  unfold ret, bind, panic, lift, get_heap, modify_heap, log in *; simpl in *.

Section Execution.
Context `{P : Platform}.

(** What [Do] does on a builder without a deferred error, given what its
    client answers: the trace gains the call, the world moves on, and the
    hook, if any, decides between the response and its own error. *)
Lemma Do_ready (r : Request) (st : State) resp cerr w' :
  err r = None ->
  client_Do (resolved_client r) (heap st) (request r) (world st)
    = ((resp, cerr), w') ->
  let r' := set_client (Some (resolved_client r)) r in
  let st' := mk_State (heap st) w'
               (trace st ++ [EvDo (resolved_client r) (request r)])%list in
  Do r st =
    match cerr with
    | Some e => Returns ((r', (None, Some e)), st')
    | None =>
        match onResponseCheck r with
        | None => Returns ((r', (Some (mk_Response resp), None)), st')
        | Some f =>
            let st'' := mk_State (heap st) w' (trace st' ++ [EvCheck resp])%list in
            match f resp with
            | Panics msg => Panics msg
            | Returns (Some e) => Returns ((r', (None, Some e)), st'')
            | Returns None => Returns ((r', (Some (mk_Response resp), None)), st'')
            end
        end
    end.
Proof.
  intros Herr Hc. destruct r as [c req e hook]. simpl in *. subst e.
  unfold Do, call_client, call_hook, resolved_client in *. simpl in *.
  destruct c as [c|]; simpl in *; run; rewrite Hc; simpl;
    destruct cerr; try reflexivity;
    destruct hook as [f|]; simpl; try reflexivity;
    destruct (f resp) as [[e|]|]; reflexivity.
Qed.

(** Whenever [Do] reports an error, the response it returns is nil. *)
Lemma Do_error_nil_response (r r' : Request) (st st' : State) resp e :
  Do r st = Returns ((r', (resp, Some e)), st') -> resp = None.
Proof.
  destruct (err r) as [e0|] eqn:Herr.
  - unfold Do. rewrite Herr. run. congruence.
  - destruct (client_Do (resolved_client r) (heap st) (request r) (world st))
      as [[resp0 cerr] w'] eqn:Hc.
    rewrite (Do_ready r st resp0 cerr w' Herr Hc). simpl.
    destruct cerr; [congruence|].
    destruct (onResponseCheck r) as [f|]; [|congruence].
    destruct (f resp0) as [[?|]|]; congruence.
Qed.

(** C1. A builder with a deferred error: [Do] returns a nil response and
    exactly the stored error, and leaves the builder and the whole state as
    they were; in particular the trace gains no call, so neither the
    injected client nor the default client was invoked, and the world did
    not move. *)
Theorem Do_deferred_error (r : Request) (e : error) (st : State) :
  err r = Some e ->
  Do r st = Returns ((r, (None, Some e)), st).
Proof.
  intros Herr. unfold Do. rewrite Herr. reflexivity.
Qed.


(** C2. A builder with a validation hook and no deferred error, whose
    client (the injected one, or the default one) answers with a response
    and a nil error: when the hook returns the error [e] on that response,
    [Do] returns a nil response and exactly [e]. *)
Theorem Do_hook_error (r : Request) (st : State)
    (f : option http_Response -> outcome (option error))
    (resp : option http_Response) (e : error) (w' : World) :
  err r = None ->
  onResponseCheck r = Some f ->
  client_Do (resolved_client r) (heap st) (request r) (world st)
    = ((resp, None), w') ->
  f resp = Returns (Some e) ->
  exists r' st', Do r st = Returns ((r', (None, Some e)), st').
Proof.
  intros Herr Hhook Hc Hf.
  rewrite (Do_ready r st resp None w' Herr Hc). simpl.
  rewrite Hhook, Hf. eauto.
Qed.

(** C8. A builder whose URL is nil: [SetQueryParam] returns at once with
    the deferred error set to "cannot add query param to nil url"; the
    request, and so its URL, which stays nil, and the rest of the state are
    untouched. *)
Theorem SetQueryParam_nil_url (r : Request) (key value : string) (st : State) :
  req_URL (request r) = None ->
  exists r',
    SetQueryParam key value r st = Returns (r', st) /\
    err r' = Some (errorString "cannot add query param to nil url") /\
    request r' = request r /\
    req_URL (request r') = None /\
    client r' = client r /\
    onResponseCheck r' = onResponseCheck r.
Proof.
  intros Hurl. unfold SetQueryParam. rewrite Hurl.
  eexists. split; [reflexivity|]. simpl. auto.
Qed.

End Execution.

Section Decoding.
Context {V : Type} `{J : JSON V}.
Context `{P : Platform}.

(** C10. [ParseJson] on a response with a body: when the decoder reports
    an error, that error is returned and [Close] is not called; when it
    reports none, the body is closed and what [Close] returns is the
    result.  So a close error is seen only after a successful decode. *)
Theorem ParseJson_decode_error_first (resp : http_Response) (rc : io_ReadCloser)
    (i i' : V) (derr : option error) (rd' : io_Reader) :
  resp_Body resp = Some rc ->
  json_Decode (rc_reader rc) i = ((derr, i'), rd') ->
  ParseJson i (mk_Response (Some resp)) =
    Returns
      ((match derr with Some e => Some e | None => rc_close rc end, i'),
       with_Body resp
         (mk_ReadCloser rd' (rc_close rc)
            (match derr with Some _ => rc_closed rc | None => true end))).
Proof.
  intros Hbody Hdec. unfold ParseJson, Response_Body. simpl.
  rewrite Hbody, Hdec. destruct derr; reflexivity.
Qed.

End Decoding.

Section Headers.
Context `{P : Platform}.

Lemma deref_insert (h : Heap) (l : loc) (m : http_Header) :
  deref (<[l := m]> h) l = m.
Proof. unfold deref. by rewrite lookup_insert_eq. Qed.

Lemma touches_only_refl l st : touches_only l st st.
Proof. unfold touches_only. auto. Qed.

Lemma touches_only_trans l st1 st2 st3 :
  touches_only l st1 st2 -> touches_only l st2 st3 -> touches_only l st1 st3.
Proof.
  intros (Ha & Hb & Hc & Hd) (Ha' & Hb' & Hc' & Hd'). unfold touches_only.
  repeat split.
  - intros l' Hne. rewrite Ha' by done. by apply Ha.
  - set_solver.
  - congruence.
  - congruence.
Qed.

Lemma touches_only_write l (m : http_Header) st :
  touches_only l st (mk_State (<[l := m]> (heap st)) (world st) (trace st)).
Proof.
  unfold touches_only. simpl. repeat split; try done.
  - intros l' Hne. by rewrite lookup_insert_ne.
  - rewrite dom_insert_L. set_solver.
Qed.

(** The part of the loop past index 0: every value is appended. *)
Lemma SetHeader_range_appends (l : loc) (key : string) (values : list string) :
  forall (n : nat) (st : State) (cur : list string),
    deref (heap st) l !! textproto_CanonicalMIMEHeaderKey key = Some cur ->
    exists st',
      SetHeader_range l key (S n) values st = Returns (tt, st') /\
      deref (heap st') l =
        <[textproto_CanonicalMIMEHeaderKey key := (cur ++ values)%list]>
          (deref (heap st) l) /\
      touches_only l st st'.
Proof.
  induction values as [|v values IH]; intros n st cur Hcur.
  - exists st. simpl. run. split; [done|]. split.
    + rewrite app_nil_r. symmetry. by apply insert_id.
    + apply touches_only_refl.
  - simpl. run. unfold Header_Add. run.
    set (k := textproto_CanonicalMIMEHeaderKey key) in *.
    set (st1 := mk_State _ _ _).
    destruct (IH (S n) st1 (cur ++ [v])%list) as (st' & Hrun & Hmap & Hfr).
    { unfold st1. simpl. rewrite deref_insert, lookup_insert_eq, Hcur. done. }
    exists st'. split; [exact Hrun|]. split.
    + rewrite Hmap. unfold st1. simpl. rewrite deref_insert, Hcur. simpl.
      rewrite insert_insert_eq. by rewrite <- app_assoc.
    + eapply touches_only_trans; [|exact Hfr]. apply touches_only_write.
Qed.

(** [SetHeader] with at least one value: the builder is returned as it
    was, and in its header map the canonical key holds exactly the values
    of this call. *)
Lemma SetHeader_some (key v : string) (vs : list string) (r : Request) (st : State) :
  exists st',
    SetHeader key (v :: vs) r st = Returns (r, st') /\
    headers_of r st' =
      <[textproto_CanonicalMIMEHeaderKey key := v :: vs]> (headers_of r st) /\
    touches_only (GetHeader r) st st'.
Proof.
  unfold SetHeader, headers_of, GetHeader. simpl. run. unfold Header_Set. run.
  set (l := req_Header (request r)).
  set (k := textproto_CanonicalMIMEHeaderKey key).
  set (st1 := mk_State _ _ _).
  destruct (SetHeader_range_appends l key vs 0 st1 [v]) as (st' & Hrun & Hmap & Hfr).
  { unfold st1. simpl. by rewrite deref_insert, lookup_insert_eq. }
  rewrite Hrun. exists st'. split; [done|]. split.
  - rewrite Hmap. unfold st1. simpl. rewrite deref_insert.
    by rewrite insert_insert_eq.
  - eapply touches_only_trans; [|exact Hfr]. apply touches_only_write.
Qed.

(** [SetHeader] without values only sets the deferred error. *)
Lemma SetHeader_none (key : string) (r : Request) (st : State) :
  SetHeader key [] r st =
    Returns (set_err (Some (errorString
               ("missing values for set header " ++ strconv_Quote key))) r, st).
Proof. reflexivity. Qed.

(** [SetHeader] always returns, writes no map but the builder's own, and
    keeps the builder's request. *)
Lemma SetHeader_returns (key : string) (values : list string) (r : Request)
    (st : State) :
  exists r' st',
    SetHeader key values r st = Returns (r', st') /\
    request r' = request r /\
    client r' = client r /\
    onResponseCheck r' = onResponseCheck r /\
    (is_Some (err r) -> is_Some (err r')) /\
    (values <> [] -> r' = r) /\
    touches_only (GetHeader r) st st'.
Proof.
  destruct values as [|v vs].
  - eexists _, st. rewrite SetHeader_none.
    repeat split; try done; apply touches_only_refl.
  - destruct (SetHeader_some key v vs r st) as (st' & Hrun & _ & Hfr).
    exists r, st'. repeat split; solve [done | apply Hfr].
Qed.

(** C4, amended. [SetHeader] with a first value and any further values
    leaves, under the canonical key, exactly the values of the call: the
    first replaced what was there, the others were appended.  A later call
    for the same key does the same, so its values take the place of those
    of the earlier call.  A call without values sets the deferred error,
    whose message names the key as [%q] prints it, and touches no header. *)
Theorem SetHeader_values (key : string) (r : Request) (st : State) :
  (forall v vs, exists st',
     SetHeader key (v :: vs) r st = Returns (r, st') /\
     headers_of r st' =
       <[textproto_CanonicalMIMEHeaderKey key := v :: vs]> (headers_of r st) /\
     touches_only (GetHeader r) st st') /\
  (forall v vs w ws, exists st1 st2,
     SetHeader key (v :: vs) r st = Returns (r, st1) /\
     SetHeader key (w :: ws) r st1 = Returns (r, st2) /\
     headers_of r st2 =
       <[textproto_CanonicalMIMEHeaderKey key := w :: ws]> (headers_of r st)) /\
  SetHeader key [] r st =
    Returns (set_err (Some (errorString
               ("missing values for set header " ++ strconv_Quote key))) r, st).
Proof.
  split; [|split].
  - intros v vs. apply SetHeader_some.
  - intros v vs w ws.
    destruct (SetHeader_some key v vs r st) as (st1 & H1 & Hm1 & _).
    destruct (SetHeader_some key w ws r st1) as (st2 & H2 & Hm2 & _).
    exists st1, st2. split; [done|]. split; [done|].
    rewrite Hm2, Hm1. by rewrite insert_insert_eq.
  - apply SetHeader_none.
Qed.

End Headers.

Section Cloning.
Context `{P : Platform}.

(** [CloneWithContext] always returns; the clone holds a new header map
    with the contents of the original's, the same deferred error and
    client, and no hook. *)
Lemma CloneWithContext_returns (ctx : context_Context) (r : Request) (st : State) :
  exists r' st',
    CloneWithContext ctx r st = Returns (r', st') /\
    (GetHeader r' ∉ dom (heap st)) /\
    allocated r' st' /\
    headers_of r' st' = headers_of r st /\
    touches_only (GetHeader r') st st' /\
    err r' = err r /\
    client r' = client r /\
    onResponseCheck r' = None.
Proof.
  unfold CloneWithContext, http_Request_Clone, alloc. run.
  eexists _, _. split; [reflexivity|]. simpl.
  unfold allocated, headers_of, GetHeader. simpl.
  split; [apply is_fresh|].
  split; [rewrite dom_insert_L; set_solver|].
  split; [by rewrite deref_insert|].
  split; [|done].
  apply (touches_only_write _ _ st).
Qed.

(** A clone made by either method: what the proofs below need of it. *)
Lemma clone_cases (ctx : context_Context) (r r' : Request) (st st' : State) :
  CloneWithContext ctx r st = Returns (r', st') \/ Clone r st = Returns (r', st') ->
  (GetHeader r' ∉ dom (heap st)) /\
  allocated r' st' /\
  headers_of r' st' = headers_of r st /\
  touches_only (GetHeader r') st st' /\
  err r' = err r /\
  client r' = client r /\
  onResponseCheck r' = None.
Proof.
  intros [H|H].
  - destruct (CloneWithContext_returns ctx r st) as (r0 & st0 & Hrun & Hrest).
    rewrite Hrun in H. inversion H; subst. exact Hrest.
  - unfold Clone in H.
    destruct (CloneWithContext_returns (http_Request_Context (request r)) r st)
      as (r0 & st0 & Hrun & Hrest).
    rewrite Hrun in H. inversion H; subst. exact Hrest.
Qed.

(** A map other than the builder's own is not changed by [SetHeader]. *)
Lemma SetHeader_frame (key : string) (values : list string) (r : Request)
    (st : State) (l : loc) :
  l <> GetHeader r ->
  exists r' st',
    SetHeader key values r st = Returns (r', st') /\
    GetHeader r' = GetHeader r /\
    deref (heap st') l = deref (heap st) l.
Proof.
  intros Hne.
  destruct (SetHeader_returns key values r st)
    as (r' & st' & Hrun & Hreq & _ & _ & _ & _ & Hfr & _).
  exists r', st'. split; [done|]. split.
  - unfold GetHeader. by rewrite Hreq.
  - unfold deref. by rewrite Hfr.
Qed.

(** C7. A builder whose header map is allocated, and its clone by [Clone]
    or [CloneWithContext]: both methods return, the clone starts with the
    original's headers, and from then on, in whatever state, [SetHeader] on
    the original leaves the clone's headers as they were before the call,
    and [SetHeader] on the clone leaves the original's headers as they were
    before the call. *)
Theorem Clone_headers_independent (ctx : context_Context) (r : Request)
    (st : State) :
  allocated r st ->
  (exists r' st1, CloneWithContext ctx r st = Returns (r', st1)) /\
  (exists r' st1, Clone r st = Returns (r', st1)) /\
  forall r' st1,
    CloneWithContext ctx r st = Returns (r', st1) \/ Clone r st = Returns (r', st1) ->
    headers_of r' st1 = headers_of r st /\
    headers_of r st1 = headers_of r st /\
    forall (key : string) (values : list string) (st2 : State),
      (exists ro st3,
         SetHeader key values r st2 = Returns (ro, st3) /\
         GetHeader ro = GetHeader r /\
         headers_of r' st3 = headers_of r' st2) /\
      (exists rc st3,
         SetHeader key values r' st2 = Returns (rc, st3) /\
         GetHeader rc = GetHeader r' /\
         headers_of r st3 = headers_of r st2).
Proof.
  intros Halloc. split; [|split].
  - destruct (CloneWithContext_returns ctx r st) as (r' & st1 & Hrun & _). eauto.
  - destruct (CloneWithContext_returns (http_Request_Context (request r)) r st)
      as (r' & st1 & Hrun & _). unfold Clone. eauto.
  - intros r' st1 Hclone.
    destruct (clone_cases ctx r r' st st1 Hclone)
      as (Hfresh & _ & Hcopy & Hfr & _).
    assert (Hne : GetHeader r' <> GetHeader r).
    { intros Heq. apply Hfresh. rewrite Heq. exact Halloc. }
    split; [exact Hcopy|]. split.
    { unfold headers_of, deref. destruct Hfr as (Hfr & _). by rewrite Hfr. }
    intros key values st2. split.
    + apply SetHeader_frame. exact Hne.
    + apply SetHeader_frame. exact (not_eq_sym Hne).
Qed.

(** A builder without a hook: [Do] always returns and hands no response to
    any hook. *)
Lemma Do_without_hook (r : Request) (st : State) :
  onResponseCheck r = None ->
  exists out st',
    Do r st = Returns (out, st') /\ checks (trace st') = checks (trace st).
Proof.
  intros Hhook. destruct (err r) as [e|] eqn:Herr.
  - unfold Do. rewrite Herr. run. eauto.
  - destruct (client_Do (resolved_client r) (heap st) (request r) (world st))
      as [[resp cerr] w'] eqn:Hc.
    rewrite (Do_ready r st resp cerr w' Herr Hc). simpl. rewrite Hhook.
    destruct cerr; eexists _, _; (split; [reflexivity|]); simpl;
      unfold checks; rewrite omap_app; simpl; by rewrite app_nil_r.
Qed.

(** C6. A builder with a validation hook [f], and its clone by [Clone] or
    [CloneWithContext]: both methods return, and the clone's hook is nil.
    So executing the clone always returns and hands no response to any
    hook, and a response its client returns without error is returned to
    the caller whatever [f] says of it, while executing the original, when
    its client answers without error, hands the response to [f]. *)
Theorem Clone_drops_onResponseCheck (ctx : context_Context) (r : Request)
    (st : State) (f : option http_Response -> outcome (option error)) :
  onResponseCheck r = Some f ->
  (exists r' st1, CloneWithContext ctx r st = Returns (r', st1)) /\
  (exists r' st1, Clone r st = Returns (r', st1)) /\
  forall r' st1,
    CloneWithContext ctx r st = Returns (r', st1) \/ Clone r st = Returns (r', st1) ->
    onResponseCheck r' = None /\
    (forall st2, exists out st3,
       Do r' st2 = Returns (out, st3) /\
       checks (trace st3) = checks (trace st2)) /\
    (forall st2 resp w',
       err r = None ->
       client_Do (resolved_client r') (heap st2) (request r') (world st2)
         = ((resp, None), w') ->
       exists r'' st3,
         Do r' st2 = Returns ((r'', (Some (mk_Response resp), None)), st3)) /\
    (forall st2 resp w' out st3,
       err r = None ->
       client_Do (resolved_client r) (heap st2) (request r) (world st2)
         = ((resp, None), w') ->
       Do r st2 = Returns (out, st3) ->
       checks (trace st3) = (checks (trace st2) ++ [resp])%list).
Proof.
  intros Hhook. split; [|split].
  - destruct (CloneWithContext_returns ctx r st) as (r' & st1 & Hrun & _). eauto.
  - destruct (CloneWithContext_returns (http_Request_Context (request r)) r st)
      as (r' & st1 & Hrun & _). unfold Clone. eauto.
  - intros r' st1 Hclone.
    destruct (clone_cases ctx r r' st st1 Hclone)
      as (_ & _ & _ & _ & Herr' & _ & Hnone).
    split; [exact Hnone|]. split; [|split].
    + intros st2. by apply Do_without_hook.
    + intros st2 resp w' Herr Hc.
      rewrite (Do_ready r' st2 resp None w') by congruence.
      simpl. rewrite Hnone. eauto.
    + intros st2 resp w' out st3 Herr Hc HDo.
      rewrite (Do_ready r st2 resp None w' Herr Hc) in HDo. simpl in HDo.
      rewrite Hhook in HDo. unfold checks.
      destruct (f resp) as [[e|]|]; inversion HDo; subst; simpl;
        rewrite !omap_app; simpl; by rewrite app_nil_r.
Qed.

End Cloning.

Section Stickiness.
Context `{P : Platform}.

(** One configuration method on a failed builder: it returns, and the
    builder it returns is failed too. *)
Lemma configure_keeps_error (op : config_op) (r : Request) (st : State) :
  is_Some (err r) ->
  exists r' st', configure op r st = Returns (r', st') /\ is_Some (err r').
Proof.
  intros Herr.
  (* the setters of one field, and the clones, keep [err] as it is *)
  destruct op; simpl;
    try (eexists _, _; split; [reflexivity|]; exact Herr).
  - (* SetHeader *)
    destruct (SetHeader_returns key values r st)
      as (r' & st' & Hrun & _ & _ & _ & Hkeep & _). eauto.
  - (* SetQueryParam *)
    unfold SetQueryParam. destruct (req_URL (request r));
      eexists _, _; (split; [reflexivity|]); simpl; eauto.
  - (* Url *)
    unfold Url. destruct (url_Parse u);
      eexists _, _; (split; [reflexivity|]); simpl; eauto.
  - (* Json *)
    destruct (SetHeader_returns "content-type" ["application/json"] r st)
      as (r' & st' & Hrun & _ & _ & _ & Hkeep & _).
    unfold Json, bind. rewrite Hrun. destruct (json_Marshal body);
      eexists _, _; (split; [reflexivity|]); simpl; eauto.
Qed.

(** [New] returns a builder without deferred error, client or hook, over
    an allocated, empty header map. *)
Lemma New_allocated (st : State) :
  exists r st',
    New st = Returns (r, st') /\
    allocated r st' /\
    headers_of r st' = ∅ /\
    err r = None /\ client r = None /\ onResponseCheck r = None.
Proof.
  unfold New, alloc. run. eexists _, _. split; [reflexivity|].
  unfold allocated, headers_of, GetHeader. simpl.
  split; [rewrite dom_insert_L; set_solver|].
  split; [by rewrite deref_insert|done].
Qed.

(** Every configuration method returns, and keeps the header maps of the
    builder it is called on and of the builder it returns allocated. *)
Lemma configure_allocated (op : config_op) (r : Request) (st : State) :
  allocated r st ->
  exists r' st',
    configure op r st = Returns (r', st') /\ allocated r' st' /\ allocated r st'.
Proof.
  intros Halloc.
  destruct op; simpl;
    try (eexists _, _; split; [reflexivity|]; split; exact Halloc).
  - (* SetHeader *)
    destruct (SetHeader_returns key values r st)
      as (r' & st' & Hrun & Hreq & _ & _ & _ & _ & _ & Hdom & _).
    exists r', st'. split; [exact Hrun|]. unfold allocated, GetHeader in *.
    rewrite Hreq. set_solver.
  - (* SetQueryParam *)
    unfold SetQueryParam. destruct (req_URL (request r));
      eexists _, _; (split; [reflexivity|]); split; exact Halloc.
  - (* Url *)
    unfold Url. destruct (url_Parse u);
      eexists _, _; (split; [reflexivity|]); split; exact Halloc.
  - (* Json *)
    destruct (SetHeader_some "content-type" "application/json" [] r st)
      as (st' & Hrun & _ & _ & Hdom & _).
    unfold Json, bind. rewrite Hrun. unfold allocated, GetHeader in *.
    destruct (json_Marshal body);
      eexists _, _; (split; [reflexivity|]); simpl; set_solver.
  - (* Clone *)
    destruct (CloneWithContext_returns (http_Request_Context (request r)) r st)
      as (r' & st' & Hrun & _ & Ha & _ & (_ & Hdom & _) & _).
    exists r', st'. split; [exact Hrun|]. split; [exact Ha|].
    unfold allocated in *. set_solver.
  - (* CloneWithContext *)
    destruct (CloneWithContext_returns ctx r st)
      as (r' & st' & Hrun & _ & Ha & _ & (_ & Hdom & _) & _).
    exists r', st'. split; [exact Hrun|]. split; [exact Ha|].
    unfold allocated in *. set_solver.
Qed.

(** C9. Once the deferred error is set, every chain of configuration
    calls (the method setters, [Url], [SetHeader], [SetQueryParam], [Body],
    [Json], [SetClient], [Context], [OnResponseCheck], [Clone] and
    [CloneWithContext]) returns a builder whose deferred error is still
    set: no method resets it to nil. *)
Theorem deferred_error_sticky (ops : list config_op) (r : Request) (st : State) :
  is_Some (err r) ->
  exists r' st', configure_all ops r st = Returns (r', st') /\ is_Some (err r').
Proof.
  revert r st. induction ops as [|op ops IH]; intros r st Herr.
  - exists r, st. split; [reflexivity|exact Herr].
  - destruct (configure_keeps_error op r st Herr) as (r1 & st1 & Hrun & Herr1).
    destruct (IH r1 st1 Herr1) as (r' & st' & Hrest & Herr').
    exists r', st'. split; [|exact Herr'].
    simpl. unfold bind. rewrite Hrun. exact Hrest.
Qed.

End Stickiness.

Section Combined.
Context {V : Type} `{J : JSON V}.
Context `{P : Platform}.

(** When [Do] fails, [DoAndParseJson] has no response to read: the error
    it returns is the text "error: " followed by the message of [Do]'s
    error and nothing else, and the destination is as it was. *)
Lemma DoAndParseJson_after_failure (i : V) (r r' : Request) (st st' : State)
    (resp : option Response) (e : error) :
  Do r st = Returns ((r', (resp, Some e)), st') ->
  DoAndParseJson i r st = Returns ((r', (Some (errorf_error e), i)), st').
Proof.
  intros HDo. pose proof (Do_error_nil_response _ _ _ _ _ _ HDo) as ->.
  unfold DoAndParseJson, bind. rewrite HDo. reflexivity.
Qed.



End Combined.

(** * The package on the simulated platform *)

Section Scenarios.
Local Existing Instance Sim.platform.
Local Existing Instance Sim.json_int.

Example New_on_init : New Sim.init = Returns (Sim.blank, Sim.blank_state).
Proof. reflexivity. Qed.

(** [SetHeader] stores under the canonical key. *)
Example SetHeader_canonical :
  exists st,
    SetHeader "x-tag" ["1"; "2"] Sim.blank Sim.blank_state = Returns (Sim.blank, st) /\
    headers_of Sim.blank st !! "X-Tag" = Some ["1"; "2"].
Proof.
  destruct (SetHeader_some "x-tag" "1" ["2"] Sim.blank Sim.blank_state)
    as (st & Hrun & Hmap & _).
  exists st. split; [exact Hrun|]. rewrite Hmap. apply lookup_insert_eq.
Qed.

(** [New().Post().Url(u).Json(7)]: a POST whose content type is
    application/json and whose body is the encoding of 7. *)
Example post_json_request :
  exists r st,
    Sim.post_json 7 Sim.init = Returns (r, st) /\
    req_Method (request r) = "POST" /\
    headers_of r st !! "Content-Type" = Some ["application/json"] /\
    req_Body (request r) = Some (io_NopCloser_Buffer "7") /\
    err r = None.
Proof.
  eexists _, _. split; [reflexivity|]. repeat split; reflexivity.
Qed.

(** C3, at a failing input.  A server answers 404 with the body
    "resource missing"; the hook [Check200] rejects the response, which was
    available and whose body could be read (the hook was handed it).
    [DoAndParseJson] returns the error "error: [404] 404 Not Found": the
    body text is not in it.  The destination still holds 0. *)
Theorem DoAndParseJson_validation_failure_omits_body :
  exists r st,
    Sim.not_found_scenario Sim.init =
      Returns ((r, (Some (errorString "error: [404] 404 Not Found"), 0%Z)), st) /\
    checks (trace st) =
      [Some (mk_http_Response 404 "404 Not Found"
               (Some (io_NopCloser_Buffer "resource missing")))] /\
    strings_Contains "error: [404] 404 Not Found" "resource missing" = false.
Proof.
  eexists _, _. split; [reflexivity|]. split; reflexivity.
Qed.

End Scenarios.

(** * The theorems at concrete inputs *)

Section Instances.
Local Existing Instance Sim.platform.
Local Existing Instance Sim.json_int.

(** A builder that [SetHeader] without values has marked as failed. *)
Lemma Do_deferred_error_witness :
  exists e,
    SetHeader "accept" [] Sim.blank Sim.blank_state
      = Returns (set_err (Some e) Sim.blank, Sim.blank_state) /\
    Do (set_err (Some e) Sim.blank) Sim.blank_state
      = Returns ((set_err (Some e) Sim.blank, (None, Some e)), Sim.blank_state).
Proof.
  eexists. split; [reflexivity|].
  apply (Do_deferred_error (P := Sim.platform)). reflexivity.
Defined.

(** [Check200] against the server that answers 404 *)
Lemma Do_hook_error_witness :
  exists r' st',
    Do (mk_Request (P := Sim.platform) (Some Sim.not_found) (request Sim.blank) None
          (Some Check200))
       Sim.blank_state
      = Returns ((r', (None, Some (errorString "[404] 404 Not Found"))), st').
Proof.
  apply (Do_hook_error (P := Sim.platform)
           (mk_Request (P := Sim.platform) (Some Sim.not_found) (request Sim.blank) None
          (Some Check200))
           Sim.blank_state Check200
           (Some (mk_http_Response 404 "404 Not Found"
                    (Some (io_NopCloser_Buffer "resource missing"))))
           (errorString "[404] 404 Not Found") 1);
    reflexivity.
Defined.

Lemma SetQueryParam_nil_url_witness :
  exists r',
    SetQueryParam "page" "2" Sim.blank Sim.blank_state = Returns (r', Sim.blank_state) /\
    err r' = Some (errorString "cannot add query param to nil url") /\
    request r' = request Sim.blank /\
    req_URL (request r') = None /\
    client r' = client Sim.blank /\
    onResponseCheck r' = onResponseCheck Sim.blank.
Proof.
  apply (SetQueryParam_nil_url (P := Sim.platform)). reflexivity.
Defined.

(** A body that is not JSON and whose [Close] fails: the decode error is
    the one returned, and the body is not closed. *)
Lemma ParseJson_decode_error_first_witness :
  let rc := mk_ReadCloser (mk_Reader "oops" None)
              (Some (errorString "close failed")) false in
  ParseJson 0%Z (mk_Response (Some (mk_http_Response 200 "200 OK" (Some rc)))) =
    Returns
      ((Some (errorString "invalid character"), 0%Z),
       with_Body (mk_http_Response 200 "200 OK" (Some rc)) rc).
Proof.
  intros rc.
  apply (ParseJson_decode_error_first
           (mk_http_Response 200 "200 OK" (Some rc)) rc 0%Z 0%Z
           (Some (errorString "invalid character")) (mk_Reader "oops" None));
    reflexivity.
Defined.

(** C4, as stated, fails: on a new builder, [SetHeader("X-Tag", "1")]
    followed by [SetHeader("X-Tag", "2")] leaves ["2"] under the key, not
    ["1"; "2"]. *)
Lemma SetHeader_appends_across_calls_counterexample :
  ~ SetHeader_appends_across_calls Sim.blank Sim.blank_state "X-Tag" ["1"] ["2"].
Proof.
  intros Happend.
  destruct (SetHeader_some "X-Tag" "1" [] Sim.blank Sim.blank_state)
    as (st1 & Hfirst & _).
  destruct (SetHeader_some "X-Tag" "2" [] Sim.blank st1)
    as (st2 & Hsecond & Hmap & _).
  specialize (Happend _ _ _ _ Hfirst Hsecond).
  rewrite Hmap, lookup_insert_eq in Happend. discriminate.
Qed.

Lemma Clone_headers_independent_witness :
  (exists r' st1, CloneWithContext context_Background Sim.blank Sim.blank_state
                    = Returns (r', st1)) /\
  (exists r' st1, Clone Sim.blank Sim.blank_state = Returns (r', st1)) /\
  forall r' st1,
    CloneWithContext context_Background Sim.blank Sim.blank_state = Returns (r', st1) \/
    Clone Sim.blank Sim.blank_state = Returns (r', st1) ->
    headers_of r' st1 = headers_of Sim.blank Sim.blank_state /\
    headers_of Sim.blank st1 = headers_of Sim.blank Sim.blank_state /\
    forall (key : string) (values : list string) (st2 : State),
      (exists ro st3,
         SetHeader key values Sim.blank st2 = Returns (ro, st3) /\
         GetHeader ro = GetHeader Sim.blank /\
         headers_of r' st3 = headers_of r' st2) /\
      (exists rc st3,
         SetHeader key values r' st2 = Returns (rc, st3) /\
         GetHeader rc = GetHeader r' /\
         headers_of Sim.blank st3 = headers_of Sim.blank st2).
Proof.
  apply (Clone_headers_independent (P := Sim.platform)).
  unfold allocated. vm_compute. reflexivity.
Defined.

Lemma Clone_drops_onResponseCheck_witness :
  let r := set_onResponseCheck (Some Check200) Sim.blank in
  exists r' st1,
    Clone r Sim.blank_state = Returns (r', st1) /\ onResponseCheck r' = None.
Proof.
  intros r.
  destruct (Clone_drops_onResponseCheck (P := Sim.platform)
              context_Background r Sim.blank_state Check200 eq_refl)
    as (_ & (r' & st1 & Hclone) & Hall).
  exists r', st1. split; [exact Hclone|].
  exact (proj1 (Hall r' st1 (or_intror Hclone))).
Defined.

(** A failed builder stays failed through a chain that sets a valid URL,
    valid headers and a body, and clones. *)
Lemma deferred_error_sticky_witness :
  let r := set_err (Some (errorString "cannot add query param to nil url")) Sim.blank in
  exists r' st',
    configure_all
      [OpPost; OpUrl "http://x/"; OpSetHeader "accept" ["text/plain"];
       OpJson Z Sim.json_int 7%Z; OpClone] r Sim.blank_state
      = Returns (r', st') /\
    is_Some (err r').
Proof.
  intros r.
  apply (deferred_error_sticky (P := Sim.platform)). simpl. eauto.
Defined.



End Instances.

(** * Further properties of the package *)

Section Executing.
Context `{P : Platform}.

(** X1. [Check200] as the hook of [Do]: a response the transport returns
    without error is returned to the caller when its status code is 200,
    and otherwise [Do] returns nil and the error "[code] status". *)
Theorem Do_with_Check200 (r : Request) (st : State) (resp : http_Response)
    (w' : World) :
  err r = None ->
  onResponseCheck r = Some Check200 ->
  client_Do (resolved_client r) (heap st) (request r) (world st)
    = ((Some resp, None), w') ->
  exists r' st',
    Do r st =
      Returns
        ((r',
          if bool_decide (StatusCode resp = http_StatusOK)
          then (Some (mk_Response (Some resp)), None)
          else (None, Some (errorString
                  ("[" ++ fmt_int (StatusCode resp) ++ "] " ++ Status resp)))),
         st').
Proof.
  intros Herr Hhook Hc.
  rewrite (Do_ready r st _ _ _ Herr Hc). simpl. rewrite Hhook.
  unfold Check200.
  destruct (decide (StatusCode resp = http_StatusOK)) as [Heq|Hne].
  - rewrite bool_decide_eq_false_2 by (intros Hn; apply Hn, Heq).
    rewrite bool_decide_eq_true_2 by exact Heq. eauto.
  - rewrite bool_decide_eq_true_2 by exact Hne.
    rewrite bool_decide_eq_false_2 by exact Hne. eauto.
Qed.

(** X2. An error from the transport is returned as it is, with a nil
    response even when the transport returned one next to the error, and
    the hook is not called. *)
Theorem Do_transport_error (r : Request) (st : State)
    (resp : option http_Response) (e : error) (w' : World) :
  err r = None ->
  client_Do (resolved_client r) (heap st) (request r) (world st)
    = ((resp, Some e), w') ->
  exists r' st',
    Do r st = Returns ((r', (None, Some e)), st') /\
    checks (trace st') = checks (trace st) /\
    world st' = w'.
Proof.
  intros Herr Hc. rewrite (Do_ready r st _ _ _ Herr Hc). simpl.
  eexists _, _. split; [reflexivity|]. simpl. split; [|done].
  unfold checks. rewrite omap_app. simpl. by rewrite app_nil_r.
Qed.

(** X3. Without a hook, or with one that accepts, [Do] returns the very
    response pointer the transport returned, wrapped, and a nil error. *)
Theorem Do_passes_response_through (r : Request) (st : State)
    (resp : option http_Response) (w' : World) :
  err r = None ->
  client_Do (resolved_client r) (heap st) (request r) (world st)
    = ((resp, None), w') ->
  (forall f, onResponseCheck r = Some f -> f resp = Returns None) ->
  exists r' st',
    Do r st = Returns ((r', (Some (mk_Response resp), None)), st') /\
    world st' = w'.
Proof.
  intros Herr Hc Hacc. rewrite (Do_ready r st _ _ _ Herr Hc). simpl.
  destruct (onResponseCheck r) as [f|].
  - rewrite (Hacc f eq_refl). eauto.
  - eauto.
Qed.

(** X4. Whenever [Do] returns on a builder without deferred error, it has
    called one client once, handing it the builder's request: the injected
    client if there is one, the default client otherwise.  That client is
    the builder's client from then on. *)
Theorem Do_calls_resolved_client_once (r r' : Request) (st st' : State)
    (res : option Response * option error) :
  err r = None ->
  Do r st = Returns ((r', res), st') ->
  client r' = Some (default http_DefaultClient (client r)) /\
  exists tail,
    trace st' =
      (trace st ++ EvDo (default http_DefaultClient (client r)) (request r) :: tail)%list /\
    transport_calls tail = [].
Proof.
  intros Herr HDo.
  destruct (client_Do (resolved_client r) (heap st) (request r) (world st))
    as [[resp cerr] w'] eqn:Hc.
  rewrite (Do_ready r st resp cerr w' Herr Hc) in HDo. simpl in HDo.
  unfold resolved_client in *.
  assert (Hshape : forall tail, transport_calls tail = [] ->
            forall res0,
              Returns ((set_client (Some (default http_DefaultClient (client r))) r, res0),
                       mk_State (heap st) w'
                         (trace st ++ EvDo (default http_DefaultClient (client r))
                                        (request r) :: tail)%list)
                = Returns ((r', res), st') ->
              client r' = Some (default http_DefaultClient (client r)) /\
              exists tail0,
                trace st' =
                  (trace st ++ EvDo (default http_DefaultClient (client r))
                                 (request r) :: tail0)%list /\
                transport_calls tail0 = []).
  { intros tail Htail res0 Heq. inversion Heq; subst; simpl.
    split; [done|]. eauto. }
  destruct cerr.
  - apply (Hshape [] eq_refl _ HDo).
  - destruct (onResponseCheck r) as [f|].
    + destruct (f resp) as [[e|]|]; try discriminate;
        rewrite <- app_assoc in HDo; simpl in HDo;
        apply (Hshape [EvCheck resp] eq_refl _ HDo).
    + apply (Hshape [] eq_refl _ HDo).
Qed.

(** X5. A transport that returns neither a response nor an error: with
    [Check200] as the hook, [Do] panics on the nil response; without a hook
    [Do] returns a wrapper around the nil pointer and a nil error, and
    [Raw] on that wrapper panics. *)
Theorem Do_nil_response_nil_error (r : Request) (st : State) (w' : World) :
  err r = None ->
  client_Do (resolved_client r) (heap st) (request r) (world st)
    = ((None, None), w') ->
  (onResponseCheck r = Some Check200 -> exists msg, Do r st = Panics msg) /\
  (onResponseCheck r = None ->
     exists r' st',
       Do r st = Returns ((r', (Some (mk_Response None), None)), st') /\
       exists msg, Raw (mk_Response None) = Panics msg).
Proof.
  intros Herr Hc. rewrite (Do_ready r st _ _ _ Herr Hc). simpl. split.
  - intros ->. simpl. eauto.
  - intros ->. eexists _, _. split; [reflexivity|]. unfold Raw. simpl. eauto.
Qed.

End Executing.

Section Configuring.
Context `{P : Platform}.

(** X6. [SetHeader] for one key leaves the values of every other canonical
    key as they were, and the key itself then holds the values of the call. *)
Theorem SetHeader_other_keys (key v : string) (vs : list string) (k' : string)
    (r : Request) (st : State) :
  k' <> textproto_CanonicalMIMEHeaderKey key ->
  exists st',
    SetHeader key (v :: vs) r st = Returns (r, st') /\
    headers_of r st' !! k' = headers_of r st !! k' /\
    headers_of r st' !! textproto_CanonicalMIMEHeaderKey key = Some (v :: vs).
Proof.
  intros Hne.
  destruct (SetHeader_some key v vs r st) as (st' & Hrun & Hmap & _).
  exists st'. split; [exact Hrun|]. rewrite Hmap.
  split; [by rewrite lookup_insert_ne|by rewrite lookup_insert_eq].
Qed.

(** X7. Header keys are matched by their canonical form: a [SetHeader]
    call for a key spelled differently but with the same canonical form
    replaces the values an earlier call stored. *)
Theorem SetHeader_same_canonical_key (k1 k2 v w : string) (vs ws : list string)
    (r : Request) (st : State) :
  textproto_CanonicalMIMEHeaderKey k1 = textproto_CanonicalMIMEHeaderKey k2 ->
  exists st1 st2,
    SetHeader k1 (v :: vs) r st = Returns (r, st1) /\
    SetHeader k2 (w :: ws) r st1 = Returns (r, st2) /\
    headers_of r st2 =
      <[textproto_CanonicalMIMEHeaderKey k1 := w :: ws]> (headers_of r st).
Proof.
  intros Hcanon.
  destruct (SetHeader_some k1 v vs r st) as (st1 & H1 & Hm1 & _).
  destruct (SetHeader_some k2 w ws r st1) as (st2 & H2 & Hm2 & _).
  exists st1, st2. split; [exact H1|]. split; [exact H2|].
  rewrite Hm2, Hm1, <- Hcanon. by rewrite insert_insert_eq.
Qed.

(** X8. [SetQueryParam] on a builder with a URL appends: when the query
    string it writes is read back as the values it encoded, two calls for
    one key leave both values, in call order, after the values the key had;
    the other keys, the other parts of the URL and the deferred error are
    as before. *)
Theorem SetQueryParam_appends (r : Request) (u : url_URL) (key v1 v2 : string)
    (st : State) :
  req_URL (request r) = Some u ->
  url_ParseQuery
    (url_Values_Encode (url_Values_Add key v1 (url_ParseQuery (RawQuery u))))
    = url_Values_Add key v1 (url_ParseQuery (RawQuery u)) ->
  exists r1 r2 u2 (q : url_Values),
    SetQueryParam key v1 r st = Returns (r1, st) /\
    SetQueryParam key v2 r1 st = Returns (r2, st) /\
    err r2 = err r /\
    req_URL (request r2) = Some u2 /\
    Scheme u2 = Scheme u /\ Host u2 = Host u /\ Path u2 = Path u /\
    RawQuery u2 = url_Values_Encode q /\
    q !! key =
      Some (default [] (url_ParseQuery (RawQuery u) !! key) ++ [v1; v2])%list /\
    forall k, k <> key -> q !! k = url_ParseQuery (RawQuery u) !! k.
Proof.
  intros Hurl Hround.
  set (q0 := url_ParseQuery (RawQuery u)) in *.
  eexists _, _, _, (url_Values_Add key v2 (url_Values_Add key v1 q0)).
  split. { unfold SetQueryParam. rewrite Hurl. reflexivity. }
  split. { unfold SetQueryParam. simpl. fold q0. rewrite Hround. reflexivity. }
  simpl. repeat split.
  - unfold url_Values_Add. rewrite lookup_insert_eq, lookup_insert_eq. simpl.
    by rewrite <- app_assoc.
  - intros k Hne. unfold url_Values_Add. by rewrite !lookup_insert_ne.
Qed.

(** X9. The latest failure wins: on a builder without URL, a [Url] call
    that fails to parse followed by [SetQueryParam] leaves the "nil url"
    error, and [Do] reports that one, not the parse error. *)
Theorem nil_url_error_masks_parse_error (r : Request) (u key value : string)
    (e : error) (st : State) :
  req_URL (request r) = None ->
  url_Parse u = inr e ->
  exists r1 r2,
    Url u r st = Returns (r1, st) /\
    err r1 = Some e /\
    SetQueryParam key value r1 st = Returns (r2, st) /\
    Do r2 st =
      Returns ((r2, (None, Some (errorString "cannot add query param to nil url"))),
               st).
Proof.
  intros Hurl Hparse.
  eexists _, _. split. { unfold Url. rewrite Hparse. reflexivity. }
  split; [reflexivity|]. split.
  { unfold SetQueryParam. simpl. rewrite Hurl. reflexivity. }
  reflexivity.
Qed.

(** In the model, where every context is non-nil, a chain of configuration
    calls returns. *)
Lemma configure_all_returns (ops : list config_op) (r : Request) (st : State) :
  exists r' st', configure_all ops r st = Returns (r', st').
Proof.
  revert r st. induction ops as [|op ops IH]; intros r st.
  - exists r, st. done.
  - assert (Hop : exists r1 st1, configure op r st = Returns (r1, st1)).
    { destruct op; simpl; try (eexists _, _; reflexivity).
      - destruct (SetHeader_returns key values r st) as (r1 & st1 & Hrun & _). eauto.
      - unfold SetQueryParam. destruct (req_URL (request r)); eexists _, _; reflexivity.
      - unfold Url. destruct (url_Parse u); eexists _, _; reflexivity.
      - destruct (SetHeader_some "content-type" "application/json" [] r st)
          as (st1 & Hrun & _).
        unfold Json, bind. rewrite Hrun.
        destruct (json_Marshal body); eexists _, _; reflexivity. }
    destruct Hop as (r1 & st1 & Hrun).
    destruct (IH r1 st1) as (r' & st' & Hrest).
    exists r', st'. simpl. unfold bind. rewrite Hrun. exact Hrest.
Qed.

(** X10. Configuration performs no I/O: whenever a chain of configuration
    calls returns, the world and the trace are as they were, so no
    configuration method has called the transport or the hook. *)
Theorem configure_all_no_io (ops : list config_op) (r r' : Request)
    (st st' : State) :
  configure_all ops r st = Returns (r', st') ->
  world st' = world st /\ trace st' = trace st.
Proof.
  revert r st. induction ops as [|op ops IH]; intros r st Hrun.
  - simpl in Hrun. inversion Hrun; subst. done.
  - assert (Hop : forall r1 st1,
              configure op r st = Returns (r1, st1) ->
              world st1 = world st /\ trace st1 = trace st).
    { intros r1 st1 H1. destruct op; simpl in H1;
        try (inversion H1; subst; done).
      - destruct (SetHeader_returns key values r st)
          as (r0 & st0 & Hret & _ & _ & _ & _ & _ & _ & _ & Hw & Ht).
        rewrite Hret in H1. inversion H1; subst. done.
      - unfold SetQueryParam in H1. destruct (req_URL (request r));
          inversion H1; subst; done.
      - unfold Url in H1. destruct (url_Parse u); inversion H1; subst; done.
      - destruct (SetHeader_some "content-type" "application/json" [] r st)
          as (st0 & Hret & _ & _ & _ & Hw & Ht).
        unfold Json, bind in H1. rewrite Hret in H1.
        destruct (json_Marshal body); inversion H1; subst; done. }
    simpl in Hrun. unfold bind in Hrun.
    destruct (configure op r st) as [[r1 st1]|msg] eqn:Hstep; [|discriminate].
    destruct (Hop r1 st1 eq_refl) as (Hw & Ht).
    destruct (IH r1 st1 Hrun) as (Hw' & Ht').
    split; congruence.
Qed.

(** X11. The method setters, [SetClient], [SetQueryParam], [Url], [Body],
    [Context] and [OnResponseCheck] change nothing but the builder: the
    state, and with it every header map, is as before, and the builder
    still holds the same header map. *)
Theorem configure_keeps_headers (op : config_op) (r : Request) (st : State) :
  header_op op = false ->
  exists r',
    configure op r st = Returns (r', st) /\ GetHeader r' = GetHeader r.
Proof.
  intros Hop. destruct op; try discriminate; simpl;
    try (eexists; split; reflexivity).
  - unfold SetQueryParam. destruct (req_URL (request r)); eexists; split; reflexivity.
  - unfold Url. destruct (url_Parse u); eexists; split; reflexivity.
Qed.

(** X12. Two builders made by [New] hold different header maps, both
    empty, and [SetHeader] on either, in whatever state, leaves the
    headers of the other as they were. *)
Theorem New_builders_independent (st : State) :
  exists r1 st1 r2 st2,
    New st = Returns (r1, st1) /\
    New st1 = Returns (r2, st2) /\
    GetHeader r1 <> GetHeader r2 /\
    headers_of r1 st2 = ∅ /\ headers_of r2 st2 = ∅ /\
    forall (key : string) (values : list string) (st3 : State),
      (exists ro st4,
         SetHeader key values r1 st3 = Returns (ro, st4) /\
         headers_of r2 st4 = headers_of r2 st3) /\
      (exists ro st4,
         SetHeader key values r2 st3 = Returns (ro, st4) /\
         headers_of r1 st4 = headers_of r1 st3).
Proof.
  destruct (New_allocated st) as (r1 & st1 & Hnew1 & Ha1 & He1 & _).
  assert (Hnew2 : exists r2 st2,
            New st1 = Returns (r2, st2) /\
            (GetHeader r2 ∉ dom (heap st1)) /\
            headers_of r2 st2 = ∅ /\
            forall l, l <> GetHeader r2 -> heap st2 !! l = heap st1 !! l).
  { unfold New, alloc. run. eexists _, _. split; [reflexivity|].
    unfold headers_of, GetHeader. simpl.
    split; [apply is_fresh|]. split; [by rewrite deref_insert|].
    intros l Hne. by rewrite lookup_insert_ne. }
  destruct Hnew2 as (r2 & st2 & Hnew2 & Hfresh & He2 & Hfr).
  assert (Hne : GetHeader r1 <> GetHeader r2).
  { intros Heq. apply Hfresh. rewrite <- Heq. exact Ha1. }
  exists r1, st1, r2, st2.
  split; [exact Hnew1|]. split; [exact Hnew2|]. split; [exact Hne|].
  split. { unfold headers_of, deref in *. by rewrite Hfr. }
  split; [exact He2|].
  intros key values st3. split.
  - destruct (SetHeader_frame key values r1 st3 (GetHeader r2) (not_eq_sym Hne))
      as (ro & st4 & Hrun & _ & Hsame). eauto.
  - destruct (SetHeader_frame key values r2 st3 (GetHeader r1) Hne)
      as (ro & st4 & Hrun & _ & Hsame). eauto.
Qed.

(** X13. [Clone] copies the configuration: method, URL, body, deferred
    error, client and the contents of the header map are those of the
    original, and the context is the original's, the background context if
    it had none; [CloneWithContext] differs only in the context, which is
    the one given.  Neither touches the world or the trace. *)
Theorem Clone_copies_configuration (ctx : context_Context) (r : Request)
    (st : State) :
  (exists r' st',
     Clone r st = Returns (r', st') /\
     req_Method (request r') = req_Method (request r) /\
     req_URL (request r') = req_URL (request r) /\
     req_Body (request r') = req_Body (request r) /\
     req_ctx (request r') = Some (default context_Background (req_ctx (request r))) /\
     err r' = err r /\ client r' = client r /\
     headers_of r' st' = headers_of r st /\
     world st' = world st /\ trace st' = trace st) /\
  (exists r' st',
     CloneWithContext ctx r st = Returns (r', st') /\
     req_Method (request r') = req_Method (request r) /\
     req_URL (request r') = req_URL (request r) /\
     req_Body (request r') = req_Body (request r) /\
     req_ctx (request r') = Some ctx /\
     err r' = err r /\ client r' = client r /\
     headers_of r' st' = headers_of r st /\
     world st' = world st /\ trace st' = trace st).
Proof.
  split; unfold Clone, CloneWithContext, http_Request_Clone, alloc; run;
    eexists _, _; (split; [reflexivity|]); simpl;
    unfold headers_of, GetHeader; simpl; rewrite deref_insert; done.
Qed.

(** X14. The clone of a failed builder is failed: [Do] on it returns the
    original's deferred error and calls no transport. *)
Theorem Clone_of_failed_builder_fails (r : Request) (e : error) (st : State) :
  err r = Some e ->
  exists r' st',
    Clone r st = Returns (r', st') /\
    Do r' st' = Returns ((r', (None, Some e)), st') /\
    trace st' = trace st /\ world st' = world st.
Proof.
  intros Herr.
  destruct (CloneWithContext_returns (http_Request_Context (request r)) r st)
    as (r' & st' & Hrun & _ & _ & _ & (_ & _ & Hw & Ht) & Herr' & _).
  exists r', st'. split; [exact Hrun|]. split; [|done].
  unfold Do. rewrite Herr', Herr. reflexivity.
Qed.

End Configuring.

Section Bodies.
Context {V : Type} `{J : JSON V}.
Context `{P : Platform}.

(** X15. [Json] with a value that [json.Marshal] rejects: the deferred
    error is the marshal error and the body is as before, but the content
    type has already been set to application/json. *)
Theorem Json_marshal_error (body : V) (e : error) (r : Request) (st : State) :
  json_Marshal body = inr e ->
  exists r' st',
    Json body r st = Returns (r', st') /\
    err r' = Some e /\
    req_Body (request r') = req_Body (request r) /\
    req_URL (request r') = req_URL (request r) /\
    headers_of r' st' =
      <[textproto_CanonicalMIMEHeaderKey "content-type" := ["application/json"]]>
        (headers_of r st).
Proof.
  intros Hmar.
  destruct (SetHeader_some "content-type" "application/json" [] r st)
    as (st' & Hrun & Hmap & _).
  unfold Json, bind. rewrite Hrun, Hmar.
  eexists _, _. split; [reflexivity|]. simpl. repeat split. exact Hmap.
Qed.

(** X16. [Json] with a value that [json.Marshal] encodes: the body is a
    stream of exactly the encoding whose [Close] does nothing, whatever
    body was set before; the content type is application/json, whatever
    values it had; the other headers, the URL, the method and the deferred
    error are as before. *)
Theorem Json_sets_body_and_content_type (body : V) (data : string)
    (r : Request) (st : State) :
  json_Marshal body = inl data ->
  exists r' st',
    Json body r st = Returns (r', st') /\
    req_Body (request r') = Some (io_NopCloser_Buffer data) /\
    io_ReadAll (io_NopCloser_Buffer data)
      = ((data, None), io_NopCloser_Buffer EmptyString) /\
    headers_of r' st' !! textproto_CanonicalMIMEHeaderKey "content-type"
      = Some ["application/json"] /\
    (forall k, k <> textproto_CanonicalMIMEHeaderKey "content-type" ->
       headers_of r' st' !! k = headers_of r st !! k) /\
    req_URL (request r') = req_URL (request r) /\
    req_Method (request r') = req_Method (request r) /\
    err r' = err r.
Proof.
  intros Hmar.
  destruct (SetHeader_some "content-type" "application/json" [] r st)
    as (st' & Hrun & Hmap & _).
  unfold Json, bind. rewrite Hrun, Hmar.
  eexists _, _. split; [reflexivity|]. simpl.
  split; [done|]. split; [done|].
  change (headers_of (set_request _ r) st') with (headers_of r st').
  rewrite Hmap. split; [by rewrite lookup_insert_eq|].
  split; [|done]. intros k Hne. by rewrite lookup_insert_ne.
Qed.

(** X17. Whatever makes [Do] fail, [DoAndParseJson] returns an error whose
    message is "error: " followed by the message of [Do]'s error, and
    leaves the destination as it was. *)
Theorem DoAndParseJson_wraps_Do_error (i : V) (r r' : Request) (st st' : State)
    (resp : option Response) (e : error) :
  Do r st = Returns ((r', (resp, Some e)), st') ->
  DoAndParseJson i r st =
    Returns ((r', (Some (errorString ("error: " ++ Error e)), i)), st').
Proof.
  intros HDo. exact (DoAndParseJson_after_failure i r r' st st' resp e HDo).
Qed.

(** X18. When [Do] succeeds, [DoAndParseJson] returns what [ParseJson]
    returns on the response: a decode error comes back as it is, without
    the "error: " prefix, and the destination is what the decoder left. *)
Theorem DoAndParseJson_returns_ParseJson_result (i i' : V) (r r' : Request)
    (st st' : State) (resp resp' : Response) (perr : option error) :
  Do r st = Returns ((r', (Some resp, None)), st') ->
  ParseJson i resp = Returns ((perr, i'), resp') ->
  DoAndParseJson i r st = Returns ((r', (perr, i')), st').
Proof.
  intros HDo HParse. unfold DoAndParseJson, bind. rewrite HDo.
  unfold lift. rewrite HParse. reflexivity.
Qed.

(** X19. [ParseJson] on a wrapper around a nil response, or on a response
    without body, panics, and so does [DoAndParseJson] when a transport
    returns neither response nor error to a builder without hook. *)
Theorem ParseJson_nil_response_panics (i : V) (r : Request) (st : State)
    (w' : World) (code : Z) (status : string) :
  err r = None ->
  onResponseCheck r = None ->
  client_Do (resolved_client r) (heap st) (request r) (world st)
    = ((None, None), w') ->
  (exists msg, ParseJson i (mk_Response None) = Panics msg) /\
  (exists msg,
     ParseJson i (mk_Response (Some (mk_http_Response code status None)))
       = Panics msg) /\
  (exists msg, DoAndParseJson i r st = Panics msg).
Proof.
  intros Herr Hhook Hc. split; [|split].
  - unfold ParseJson. simpl. eauto.
  - unfold ParseJson. simpl. eauto.
  - unfold DoAndParseJson, bind.
    rewrite (Do_ready r st _ _ _ Herr Hc). simpl. rewrite Hhook.
    unfold lift, ParseJson. simpl. eauto.
Qed.

End Bodies.

Section Reading.

(** X20. [Raw] on a response with a body returns every byte of the body
    together with the read error, if any; when it returns the body has been
    closed, and what [Close] returned is not reported. *)
Theorem Raw_reads_all_and_closes (resp : http_Response) (rc : io_ReadCloser) :
  resp_Body resp = Some rc ->
  exists rc',
    Raw (mk_Response (Some resp)) =
      Returns ((rd_data (rc_reader rc), rd_err (rc_reader rc)), with_Body resp rc') /\
    rc_closed rc' = true /\
    rd_data (rc_reader rc') = EmptyString /\
    rc_close rc' = rc_close rc.
Proof.
  intros Hbody. unfold Raw, Response_Body. simpl. rewrite Hbody. simpl.
  eexists. split; [reflexivity|]. done.
Qed.

End Reading.

(** * The further properties at concrete inputs *)

Section FurtherInstances.
Local Existing Instance Sim.platform.
Local Existing Instance Sim.json_int.

Lemma Do_with_Check200_witness :
  exists r' st',
    Do (Sim.checked (Sim.fixed 200 "200 OK" "7")) Sim.blank_state =
      Returns
        ((r', (Some (mk_Response
                       (Some (mk_http_Response 200 "200 OK"
                                (Some (io_NopCloser_Buffer "7"))))), None)), st').
Proof.
  apply (Do_with_Check200 (P := Sim.platform)
           (Sim.checked (Sim.fixed 200 "200 OK" "7")) Sim.blank_state
           (mk_http_Response 200 "200 OK" (Some (io_NopCloser_Buffer "7"))) 1);
    reflexivity.
Defined.

Lemma Do_transport_error_witness :
  exists r' st',
    Do (Sim.plain None) Sim.blank_state =
      Returns ((r', (None, Some (errorString "dial tcp: connection refused"))), st') /\
    checks (trace st') = checks (trace Sim.blank_state) /\
    world st' = 1.
Proof.
  apply (Do_transport_error (P := Sim.platform) (Sim.plain None) Sim.blank_state None);
    reflexivity.
Defined.

Lemma Do_passes_response_through_witness :
  exists r' st',
    Do (Sim.plain (Some Sim.not_found)) Sim.blank_state =
      Returns
        ((r', (Some (mk_Response
                       (Some (mk_http_Response 404 "404 Not Found"
                                (Some (io_NopCloser_Buffer "resource missing"))))),
               None)), st') /\
    world st' = 1.
Proof.
  apply (Do_passes_response_through (P := Sim.platform)
           (Sim.plain (Some Sim.not_found)) Sim.blank_state).
  - reflexivity.
  - reflexivity.
  - intros f Hf. discriminate Hf.
Defined.

(** A builder without client: the default client is called and kept. *)
Lemma Do_calls_resolved_client_once_witness :
  exists r' res st',
    Do (Sim.plain None) Sim.blank_state = Returns ((r', res), st') /\
    client r' = Some Sim.DefaultClient /\
    exists tail,
      trace st' =
        (trace Sim.blank_state
           ++ EvDo Sim.DefaultClient (request (Sim.plain None)) :: tail)%list /\
      transport_calls tail = [].
Proof.
  exists (Sim.plain (Some Sim.DefaultClient)),
         (None, Some (errorString "dial tcp: connection refused")),
         (mk_State (P := Sim.platform) (heap Sim.blank_state) 1
            [EvDo (P := Sim.platform) Sim.DefaultClient (request (Sim.plain None))]).
  split; [reflexivity|].
  apply (Do_calls_resolved_client_once (P := Sim.platform)
           (Sim.plain None) (Sim.plain (Some Sim.DefaultClient)) Sim.blank_state
           (mk_State (P := Sim.platform) (heap Sim.blank_state) 1
              [EvDo (P := Sim.platform) Sim.DefaultClient (request (Sim.plain None))])
           (None, Some (errorString "dial tcp: connection refused")));
    reflexivity.
Defined.

Lemma Do_nil_response_nil_error_witness :
  (exists msg, Do (Sim.checked Sim.silent) Sim.blank_state = Panics msg) /\
  (exists r' st',
     Do (Sim.plain (Some Sim.silent)) Sim.blank_state
       = Returns ((r', (Some (mk_Response None), None)), st') /\
     exists msg, Raw (mk_Response None) = Panics msg).
Proof.
  split.
  - apply (Do_nil_response_nil_error (P := Sim.platform)
             (Sim.checked Sim.silent) Sim.blank_state 1); reflexivity.
  - apply (Do_nil_response_nil_error (P := Sim.platform)
             (Sim.plain (Some Sim.silent)) Sim.blank_state 1); reflexivity.
Defined.

Lemma SetHeader_other_keys_witness :
  exists st',
    SetHeader "accept" ["text/plain"] Sim.blank Sim.blank_state
      = Returns (Sim.blank, st') /\
    headers_of Sim.blank st' !! "Content-Type"
      = headers_of Sim.blank Sim.blank_state !! "Content-Type" /\
    headers_of Sim.blank st' !! "Accept" = Some ["text/plain"].
Proof.
  apply (SetHeader_other_keys (P := Sim.platform) "accept" "text/plain" []
           "Content-Type" Sim.blank Sim.blank_state).
  vm_compute. discriminate.
Defined.

Lemma SetHeader_same_canonical_key_witness :
  exists st1 st2,
    SetHeader "content-type" ["text/plain"] Sim.blank Sim.blank_state
      = Returns (Sim.blank, st1) /\
    SetHeader "Content-Type" ["application/json"] Sim.blank st1
      = Returns (Sim.blank, st2) /\
    headers_of Sim.blank st2 =
      <["Content-Type" := ["application/json"]]> (headers_of Sim.blank Sim.blank_state).
Proof.
  apply (SetHeader_same_canonical_key (P := Sim.platform)
           "content-type" "Content-Type" "text/plain" "application/json" [] []
           Sim.blank Sim.blank_state).
  reflexivity.
Defined.

Lemma SetQueryParam_appends_witness :
  let u := mk_URL "http" "x" "/" "a=1&b=0" in
  let r := mk_Request (P := Sim.platform) None
             (set_URL (Some u) (request Sim.blank)) None None in
  exists r1 r2 u2 (q : url_Values),
    SetQueryParam "a" "2" r Sim.blank_state = Returns (r1, Sim.blank_state) /\
    SetQueryParam "a" "3" r1 Sim.blank_state = Returns (r2, Sim.blank_state) /\
    err r2 = err r /\
    req_URL (request r2) = Some u2 /\
    Scheme u2 = Scheme u /\ Host u2 = Host u /\ Path u2 = Path u /\
    RawQuery u2 = Sim.Encode q /\
    q !! "a" = Some (default [] (Sim.ParseQuery (RawQuery u) !! "a") ++ ["2"; "3"])%list /\
    forall k, k <> "a" -> q !! k = Sim.ParseQuery (RawQuery u) !! k.
Proof.
  intros u r.
  apply (SetQueryParam_appends (P := Sim.platform) r u "a" "2" "3" Sim.blank_state).
  - reflexivity.
  - vm_compute. reflexivity.
Defined.

Lemma nil_url_error_masks_parse_error_witness :
  exists e r1 r2,
    Url Sim.bad_url Sim.blank Sim.blank_state = Returns (r1, Sim.blank_state) /\
    err r1 = Some e /\
    SetQueryParam "a" "1" r1 Sim.blank_state = Returns (r2, Sim.blank_state) /\
    Do r2 Sim.blank_state =
      Returns ((r2, (None, Some (errorString "cannot add query param to nil url"))),
               Sim.blank_state).
Proof.
  eexists.
  apply (nil_url_error_masks_parse_error (P := Sim.platform)
           Sim.blank Sim.bad_url "a" "1" _ Sim.blank_state).
  - reflexivity.
  - vm_compute. reflexivity.
Defined.

(** A chain that sets a method, a URL, headers, a body and a context, and
    clones *)
Lemma configure_all_no_io_witness :
  exists r' st',
    configure_all
      [OpPost; OpUrl "http://x/test"; OpSetHeader "accept" ["text/plain"];
       OpSetQueryParam "a" "1"; OpJson Z Sim.json_int 7%Z;
       OpContext (context_Derived context_Background 1); OpClone]
      Sim.blank Sim.blank_state
      = Returns (r', st') /\
    world st' = world Sim.blank_state /\
    trace st' = trace Sim.blank_state.
Proof.
  destruct (configure_all_returns (P := Sim.platform)
              [OpPost; OpUrl "http://x/test"; OpSetHeader "accept" ["text/plain"];
               OpSetQueryParam "a" "1"; OpJson Z Sim.json_int 7%Z;
               OpContext (context_Derived context_Background 1); OpClone]
              Sim.blank Sim.blank_state) as (r' & st' & Hrun).
  exists r', st'. split; [exact Hrun|].
  exact (configure_all_no_io (P := Sim.platform) _ _ _ _ _ Hrun).
Defined.

Lemma configure_keeps_headers_witness :
  exists r',
    configure (OpUrl "http://x/") Sim.blank Sim.blank_state
      = Returns (r', Sim.blank_state) /\
    GetHeader r' = GetHeader Sim.blank.
Proof.
  apply (configure_keeps_headers (P := Sim.platform)). reflexivity.
Defined.

Lemma Clone_of_failed_builder_fails_witness :
  let e := errorString "cannot add query param to nil url" in
  exists r' st',
    Clone (set_err (Some e) Sim.blank) Sim.blank_state = Returns (r', st') /\
    Do r' st' = Returns ((r', (None, Some e)), st') /\
    trace st' = trace Sim.blank_state /\ world st' = world Sim.blank_state.
Proof.
  intros e.
  apply (Clone_of_failed_builder_fails (P := Sim.platform)). reflexivity.
Defined.

Lemma Json_marshal_error_witness :
  exists r' st',
    Json (H := Sim.json_func) Z.succ Sim.blank Sim.blank_state = Returns (r', st') /\
    err r' = Some (errorString "json: unsupported type: func(int) int") /\
    req_Body (request r') = req_Body (request Sim.blank) /\
    req_URL (request r') = req_URL (request Sim.blank) /\
    headers_of r' st' =
      <["Content-Type" := ["application/json"]]> (headers_of Sim.blank Sim.blank_state).
Proof.
  apply (Json_marshal_error (J := Sim.json_func) (P := Sim.platform)). reflexivity.
Defined.

Lemma Json_sets_body_and_content_type_witness :
  exists r' st',
    Json 7%Z Sim.blank Sim.blank_state = Returns (r', st') /\
    req_Body (request r') = Some (io_NopCloser_Buffer "7") /\
    io_ReadAll (io_NopCloser_Buffer "7")
      = (("7", None), io_NopCloser_Buffer EmptyString) /\
    headers_of r' st' !! "Content-Type" = Some ["application/json"] /\
    (forall k, k <> "Content-Type" ->
       headers_of r' st' !! k = headers_of Sim.blank Sim.blank_state !! k) /\
    req_URL (request r') = req_URL (request Sim.blank) /\
    req_Method (request r') = req_Method (request Sim.blank) /\
    err r' = err Sim.blank.
Proof.
  apply (Json_sets_body_and_content_type (J := Sim.json_int) (P := Sim.platform)).
  vm_compute. reflexivity.
Defined.

Lemma DoAndParseJson_wraps_Do_error_witness :
  DoAndParseJson 0%Z (Sim.plain None) Sim.blank_state =
    Returns
      ((Sim.plain (Some Sim.DefaultClient),
        (Some (errorString "error: dial tcp: connection refused"), 0%Z)),
       mk_State (heap Sim.blank_state) 1
         [EvDo Sim.DefaultClient (request Sim.blank)]).
Proof.
  apply (DoAndParseJson_wraps_Do_error (P := Sim.platform) 0%Z (Sim.plain None)
           (Sim.plain (Some Sim.DefaultClient)) Sim.blank_state _ None
           (errorString "dial tcp: connection refused")).
  reflexivity.
Defined.

(** A 200 response whose body is not JSON: the decode error comes back
    without prefix. *)
Lemma DoAndParseJson_returns_ParseJson_result_witness :
  let resp := mk_http_Response 200 "200 OK" (Some (io_NopCloser_Buffer "oops")) in
  let c := Sim.fixed 200 "200 OK" "oops" in
  DoAndParseJson 0%Z (Sim.plain (Some c)) Sim.blank_state =
    Returns
      ((Sim.plain (Some c), (Some (errorString "invalid character"), 0%Z)),
       mk_State (heap Sim.blank_state) 1 [EvDo c (request Sim.blank)]).
Proof.
  intros resp c.
  apply (DoAndParseJson_returns_ParseJson_result (P := Sim.platform) 0%Z 0%Z
           (Sim.plain (Some c)) (Sim.plain (Some c)) Sim.blank_state _
           (mk_Response (Some resp)) (mk_Response (Some resp))
           (Some (errorString "invalid character")));
    reflexivity.
Defined.

Lemma ParseJson_nil_response_panics_witness :
  (exists msg, ParseJson 0%Z (mk_Response None) = Panics msg) /\
  (exists msg,
     ParseJson 0%Z (mk_Response (Some (mk_http_Response 204 "204 No Content" None)))
       = Panics msg) /\
  (exists msg,
     DoAndParseJson 0%Z (Sim.plain (Some Sim.silent)) Sim.blank_state = Panics msg).
Proof.
  apply (ParseJson_nil_response_panics (P := Sim.platform) 0%Z
           (Sim.plain (Some Sim.silent)) Sim.blank_state 1);
    reflexivity.
Defined.

(** A body whose [Close] fails: [Raw] returns the bytes and a nil error. *)
Lemma Raw_reads_all_and_closes_witness :
  let rc := mk_ReadCloser (mk_Reader "payload" None)
              (Some (errorString "close failed")) false in
  let resp := mk_http_Response 200 "200 OK" (Some rc) in
  exists rc',
    Raw (mk_Response (Some resp)) = Returns (("payload", None), with_Body resp rc') /\
    rc_closed rc' = true /\
    rd_data (rc_reader rc') = EmptyString /\
    rc_close rc' = Some (errorString "close failed").
Proof.
  intros rc resp. apply (Raw_reads_all_and_closes resp rc). reflexivity.
Defined.

End FurtherInstances.
